(** * VectorCode: the query subcommand

    A shallow embedding of [src/vectorcode/subcommands/query/__init__.py]:
    [get_query_result_files], [build_query_results] and [query], together
    with the properties of the retrieval-and-reconciliation pipeline.

    The Python functions are coroutines that mutate the [Config] object they
    are given, talk to an external vector index, read files and write to a
    logger.  They are embedded in a monad [M] that threads the [Config],
    records every externally visible action in a trace of [Event]s, and
    returns either a value or the exception that was raised. *)

From Stdlib Require Import ZArith List String Ascii Bool Lia.
Import ListNotations.
Local Open Scope string_scope.
Local Open Scope Z_scope.
Local Open Scope list_scope.

Set Implicit Arguments.
Local Set Warnings "-register-all".

(** ** Python values *)

(** The filter handed to the index ([chromadb.Where]) is a nested Python
    [dict]; it is kept as the dictionary the source builds, key by key. *)
Inductive pyval : Type :=
| PInt (z : Z)
| PStr (s : string)
| PList (l : list pyval)
| PDict (d : list (string * pyval)).

(** A Python [dict] with string keys: insertion ordered, one entry per key. *)
Definition dict (V : Type) : Type := list (string * V).

Fixpoint dict_get {V} (k : string) (d : dict V) : option V :=
  match d with
  | [] => None
  | (k', v) :: d' => if String.eqb k k' then Some v else dict_get k d'
  end.

(** [d[k] = v]: overwrite in place when [k] is present, append otherwise. *)
Fixpoint dict_set {V} (k : string) (v : V) (d : dict V) : dict V :=
  match d with
  | [] => [(k, v)]
  | (k', v') :: d' =>
      if String.eqb k k' then (k', v) :: d' else (k', v') :: dict_set k v d'
  end.

Definition keys {V} (d : dict V) : list string := map fst d.

(** Truth value of a dictionary: [if filter:] *)
Definition truthy {V} (d : dict V) : bool :=
  match d with [] => false | _ => true end.

(** ** Declarations of [vectorcode.cli_utils] used by the module *)

Module QueryInclude.
(** Modelled from the spec: the enumeration [QueryInclude] is declared in
  [vectorcode.cli_utils], which is not part of the sources at hand; the
  OutputMode is "a set drawn from {path, document, chunk}", and the
  members are string valued ([str(key)] is used as a dictionary key). *)
Inductive t : Type := path | document | chunk.

Definition value (k : t) : string :=
match k with
| path => "path"
| document => "document"
| chunk => "chunk"
end.

Definition eqb (a b : t) : bool :=
match a, b with
| path, path | document, document | chunk, chunk => true
| _, _ => false
end.

(** [k in configs.include] *)
Definition mem (k : t) (l : list t) : bool := existsb (eqb k) l.
End QueryInclude.

Module Config.
(** Modelled from the spec: the dataclass [Config] is declared in
  [vectorcode.cli_utils]; the fields below are the ones this module
  reads or writes, [other_fields] stands for all remaining attributes. *)
Record t : Type := mk {
query : option (list string);
query_exclude : list string;
n_result : Z;
query_multiplier : Z;
include : list QueryInclude.t;
use_absolute_path : bool;
project_root : string;
pipe : bool;
other_fields : dict pyval
}.

(** [configs.query_exclude = l] *)
Definition set_query_exclude (l : list string) (c : t) : t :=
mk c.(query) l c.(n_result) c.(query_multiplier) c.(include)
   c.(use_absolute_path) c.(project_root) c.(pipe) c.(other_fields).

(** [configs.include = l] *)
Definition set_include (l : list QueryInclude.t) (c : t) : t :=
mk c.(query) c.(query_exclude) c.(n_result) c.(query_multiplier) l
   c.(use_absolute_path) c.(project_root) c.(pipe) c.(other_fields).
End Config.

(** ** Results, index records *)

(** Values of a result dictionary: [dict[str, str | int]]. *)
Inductive value : Type :=
| VStr (s : string)
| VInt (z : Z).

Definition StructuredResult : Type := dict value.

(** Metadata the index stores with a chunk.  The indexer writes [path] as a
    string and [start]/[end] as integers; each may be absent. *)
Record Metadata : Type := mkMeta {
  m_path : option string;
  m_start : option Z;
  m_end : option Z
}.

(** [chromadb.GetResult], the part that is read here. *)
Record GetResult : Type := mkGet {
  g_ids : list string;
  g_metadatas : option (list Metadata);
  g_documents : option (list string)
}.

(** ** Exceptions, log records and the trace *)

Inductive Exc : Type :=
| IndexError
| KeyError (k : string)
| FileNotFoundError (p : string)
| AssertionError
| TypeError
| ValueError
| InvalidCollectionException
| InvalidDimensionException
| RerankerError
| OtherError.

Inductive Level : Type := INFO | WARNING | ERROR.

(** The messages of the module, by what they report. *)
Inductive Msg : Type :=
| EmptyCollection
| Excluding (n : nat)
| QueryingChunks (n : Z)
| NoChunkMetadata
| StaleFile (identifier : string)
| ChunkAndDocument
| NoCollection (e : Exc)
| DifferentEmbeddingModel
| FailedToGetCollection
| FallingBack
| RerankerFailed.

Inductive Printed : Type :=
| PStart
| PJson (rs : list StructuredResult)
| PField (item : QueryInclude.t) (v : option value)
| PBlank.

Inductive Event : Type :=
| EvLog (lvl : Level) (m : Msg)
| EvConnect
| EvGetCollection
| EvExpandGlobs (patterns : list string)
| EvIsFile (p : string)
| EvOpen (p : string)
| EvCount
| EvGetWhere (where_ : dict pyval)
| EvGetIds (identifier : string)
| EvEmbed (chunks : list string)
| EvQuery (n_results : Z) (where_ : option (dict pyval))
| EvRerank
| EvPrint (p : Printed).

(** ** The monad *)

Record Outcome (A : Type) : Type := mkOut {
  cfg : Config.t;
  trace : list Event;
  res : Exc + A
}.

Definition M (A : Type) : Type := Config.t -> Outcome A.

Definition ret {A} (a : A) : M A := fun c => mkOut c [] (inr a).

Definition raise {A} (e : Exc) : M A := fun c => mkOut c [] (inl e).

Definition bind {A B} (m : M A) (f : A -> M B) : M B :=
  fun c =>
    let o := m c in
    match o.(res) with
    | inl e => mkOut o.(cfg) o.(trace) (inl e)
    | inr a =>
        let o' := f a o.(cfg) in
        mkOut o'.(cfg) (o.(trace) ++ o'.(trace)) o'.(res)
    end.

(** [try: m except <handles>: h] *)
Definition try_except {A} (m : M A) (handles : Exc -> bool) (h : Exc -> M A)
  : M A :=
  fun c =>
    let o := m c in
    match o.(res) with
    | inl e =>
        if handles e then
          let o' := h e o.(cfg) in
          mkOut o'.(cfg) (o.(trace) ++ o'.(trace)) o'.(res)
        else o
    | inr _ => o
    end.

Definition get_configs : M Config.t := fun c => mkOut c [] (inr c).
Definition modify_configs (f : Config.t -> Config.t) : M unit :=
  fun c => mkOut (f c) [] (inr tt).
Definition emit (e : Event) : M unit := fun c => mkOut c [e] (inr tt).
Definition lift {A} (r : Exc + A) : M A := fun c => mkOut c [] r.

Declare Scope py_scope.
Delimit Scope py_scope with py.
Notation "x <- m ;; k" := (bind m (fun x => k))
  (at level 61, m at next level, right associativity) : py_scope.
Notation "m ;; k" := (bind m (fun _ => k))
  (at level 61, right associativity) : py_scope.
Local Open Scope py_scope.

Definition log (lvl : Level) (m : Msg) : M unit := emit (EvLog lvl m).

(** A [for] loop that collects: the body is run on each element in order. *)
Fixpoint for_each {A B} (f : A -> M (list B)) (l : list A) : M (list B) :=
  match l with
  | [] => ret []
  | a :: l' => bs <- f a ;; rest <- for_each f l' ;; ret (bs ++ rest)
  end.

(** A [for] loop over a list whose body maps each element. *)
Fixpoint map_m {A B} (f : A -> M B) (l : list A) : M (list B) :=
  match l with
  | [] => ret []
  | a :: l' => b <- f a ;; rest <- map_m f l' ;; ret (b :: rest)
  end.

(** ** Text files *)

Definition newline : ascii := "010"%char.

(** [fin.readlines()]: the lines of a text, each with its line terminator. *)
Fixpoint readlines (s : string) : list string :=
  match s with
  | EmptyString => []
  | String c rest =>
      if Ascii.eqb c newline then String c EmptyString :: readlines rest
      else match readlines rest with
           | [] => [String c EmptyString]
           | l :: ls => String c l :: ls
           end
  end.

(** ["".join(lines)] *)
Definition join (lines : list string) : string :=
  fold_right String.append EmptyString lines.

(** Python's slice indices: a negative index counts from the end, and both
    ends are clamped to the length. *)
Definition slice_index (len i : Z) : Z :=
  if i <? 0 then Z.max (i + len) 0 else Z.min i len.

(** [l[lo:hi]] *)
Definition py_slice {A} (l : list A) (lo hi : Z) : list A :=
  let len := Z.of_nat (List.length l) in
  let a := slice_index len lo in
  let b := slice_index len hi in
  firstn (Z.to_nat (b - a)) (skipn (Z.to_nat a) l).

(** ** The collaborators *)

(** [chromadb]'s [AsyncCollection], by the calls the module makes on it.
    [Vec] is the type of an embedding, [QR] of a [QueryResult]. *)
Record AsyncCollection (Vec QR : Type) : Type := mkCollection {
  coll_count : Z;
  coll_get_where : dict pyval -> GetResult;
  coll_get_ids : string -> GetResult;
  coll_query : list Vec -> Z -> option (dict pyval) -> Exc + QR
}.

(** Everything outside the module: the file system, the helpers of
    [vectorcode.cli_utils] and [vectorcode.common], the chunker, the
    embedding function and the reranker. *)
Record World : Type := mkWorld {
  Vec : Type;
  QR : Type;
  (** contents of the regular files *)
  fs : string -> option string;
  expand_globs : list string -> list string;
  expand_path : string -> bool -> string;
  abspath : string -> string;
  relpath : string -> string -> string;
  cleanup_path : string -> string;
  (** [str(i) for i in StringChunker(configs).chunk(q)] *)
  string_chunker : Config.t -> string -> list string;
  embedding_function : Config.t -> list string -> Exc + list Vec;
  reranker : Config.t -> QR -> Exc + list string;
  get_collection : Config.t -> Exc + AsyncCollection Vec QR;
  verify_ef : AsyncCollection Vec QR -> Config.t -> Exc + bool
}.

Definition Collection (w : World) : Type := AsyncCollection w.(Vec) w.(QR).

Section Primitives.
Variable w : World.
Variable collection : Collection w.

(** [os.path.isfile(p)] *)
Definition isfile (p : string) : M bool :=
emit (EvIsFile p) ;;
ret (match w.(fs) p with Some _ => true | None => false end).

(** [with open(p) as fin]: the whole text, or [FileNotFoundError]. *)
Definition open_ (p : string) : M string :=
emit (EvOpen p) ;;
match w.(fs) p with
| Some text => ret text
| None => raise (FileNotFoundError p)
end.

(** [await collection.count()] *)
Definition count : M Z := emit EvCount ;; ret collection.(coll_count).

(** [await collection.get(where=f)] *)
Definition get_where (f : dict pyval) : M GetResult :=
emit (EvGetWhere f) ;; ret (collection.(coll_get_where) f).

(** [await collection.get(identifier, include=[metadatas, documents])] *)
Definition get_ids (identifier : string) : M GetResult :=
emit (EvGetIds identifier) ;; ret (collection.(coll_get_ids) identifier).

(** [get_embedding_function(configs)(query_chunks)] *)
Definition embed (query_chunks : list string) : M (list w.(Vec)) :=
configs <- get_configs ;;
emit (EvEmbed query_chunks) ;;
lift (w.(embedding_function) configs query_chunks).

(** [await collection.query(query_embeddings=e, n_results=n, where=f)] *)
Definition collection_query (e : list w.(Vec)) (n : Z)
         (f : option (dict pyval)) : M w.(QR) :=
emit (EvQuery n f) ;; lift (collection.(coll_query) e n f).

(** [await get_reranker(configs).rerank(results)] *)
Definition rerank (results : w.(QR)) : M (list string) :=
configs <- get_configs ;;
emit EvRerank ;;
lift (w.(reranker) configs results).
End Primitives.

(** ** [get_query_result_files] *)

Section Query.
Variable w : World.

(** The first loop: every query string is chunked, in order. *)
Definition query_chunks_of (configs : Config.t) : list string :=
match configs.(Config.query) with
| None | Some [] => []
| Some qs => flat_map (w.(string_chunker) configs) qs
end.

(** The comprehension assigned to [configs.query_exclude]. *)
Definition existing_excludes (patterns : list string) : M (list string) :=
emit (EvExpandGlobs patterns) ;;
for_each (fun i =>
            b <- isfile w i ;;
            ret (if b then [w.(expand_path) i true] else []))
         (w.(expand_globs) patterns).

(** [{"path": {"$nin": excluded}}] *)
Definition exclusion_clause (excluded : list string) : dict pyval :=
[("path", PDict [("$nin", PList (map PStr excluded))])].

(** Lines 51-55: the filter before the output mode is looked at. *)
Definition exclusion_filter (configs : Config.t) : M (dict pyval) :=
match configs.(Config.query_exclude) with
| [] => ret []
| excluded =>
    log INFO (Excluding (List.length excluded)) ;;
    ret (exclusion_clause excluded)
end.

(** Lines 56-69: the candidate count and the filter that are sent. *)
Definition plan (collection : Collection w) (configs : Config.t)
         (filter : dict pyval) : M (Z * dict pyval) :=
let num_query := configs.(Config.n_result) in
if QueryInclude.mem QueryInclude.chunk configs.(Config.include) then
  if truthy filter then
    ret (num_query, [("$and", PList [PDict filter; PDict [("$gte", PInt 0)]])])
  else
    ret (num_query, dict_set "start" (PDict [("$gte", PInt 0)]) filter)
else
  num_query <- count collection ;;
  if 0 <? configs.(Config.query_multiplier) then
    total <- count collection ;;
    let num_query :=
      Z.min (configs.(Config.n_result) * configs.(Config.query_multiplier))
            total in
    log INFO (QueryingChunks num_query) ;;
    ret (num_query, filter)
  else ret (num_query, filter).

(** The body of the [try] statement, lines 51-79. *)
Definition retrieve (collection : Collection w) (query_chunks : list string)
: M w.(QR) :=
configs <- get_configs ;;
filter <- exclusion_filter configs ;;
p <- plan collection configs filter ;;
let (num_query, filter) := p in
e <- embed w query_chunks ;;
collection_query collection e num_query
                 (if truthy filter then Some filter else None).

Definition is_IndexError (e : Exc) : bool :=
match e with IndexError => true | _ => false end.

Definition get_query_result_files (collection : Collection w)
: M (list string) :=
configs <- get_configs ;;
let query_chunks := query_chunks_of configs in
excluded <- existing_excludes configs.(Config.query_exclude) ;;
modify_configs (Config.set_query_exclude excluded) ;;
n <- count collection ;;
if n =? 0 then
  log ERROR EmptyCollection ;;
  ret []
else
  r <- try_except
         (results <- retrieve collection query_chunks ;; ret (Some results))
         is_IndexError
         (fun _ => ret None) ;;
  match r with
  | None => ret []
  | Some results => rerank w results
  end.

(** ** [build_query_results] *)

(** [{str(key): full_result[str(key)] for key in include}] *)
Fixpoint restrict (full_result : StructuredResult)
       (include : list QueryInclude.t) (acc : StructuredResult)
: Exc + StructuredResult :=
match include with
| [] => inr acc
| key :: rest =>
    let k := QueryInclude.value key in
    match dict_get k full_result with
    | None => inl (KeyError k)
    | Some v => restrict full_result rest (dict_set k v acc)
    end
end.

(** Lines 94-105: the identifier is an existing file. *)
Definition file_record (configs : Config.t) (identifier : string)
: M (list StructuredResult) :=
let output_path :=
  if configs.(Config.use_absolute_path) then w.(abspath) identifier
  else w.(relpath) identifier configs.(Config.project_root) in
let full_result := [("path", VStr output_path)] in
document <- open_ w identifier ;;
let full_result := dict_set "document" (VStr document) full_result in
r <- lift (restrict full_result configs.(Config.include) []) ;;
ret [r].

(** [str(meta[0].get("path"))] *)
Definition str_of_path (p : option string) : string :=
match p with Some s => s | None => "None" end.

(** Lines 122-139: the metadata carries [start] and [end]. *)
Definition expand_chunk (configs : Config.t) (m : Metadata)
         (full_result : StructuredResult) (start end_ : Z)
: M (list StructuredResult) :=
let path := str_of_path m.(m_path) in
text <- open_ w path ;;
let full_result :=
  dict_set "chunk" (VStr (join (py_slice (readlines text) start (end_ + 1))))
           full_result in
let full_result := dict_set "start_line" (VInt start) full_result in
let full_result := dict_set "end_line" (VInt end_) full_result in
full_result <-
  (if QueryInclude.mem QueryInclude.path configs.(Config.include) then
     match m.(m_path) with
     | None => raise (KeyError "path")
     | Some p =>
         ret (dict_set "path"
                (VStr (if configs.(Config.use_absolute_path) then p
                       else w.(relpath) p configs.(Config.project_root)))
                full_result)
     end
   else ret full_result) ;;
ret [full_result].

(** Lines 107-143: the identifier is looked up as a chunk. *)
Definition chunk_record (collection : Collection w) (configs : Config.t)
         (identifier : string) : M (list StructuredResult) :=
chunks <- get_ids collection identifier ;;
match chunks.(g_metadatas) with
| Some (m :: _) =>
    match chunks.(g_documents) with
    | None => raise AssertionError
    | Some [] => raise IndexError
    | Some (text :: _) =>
        let full_result :=
          [("chunk", VStr text); ("chunk_id", VStr identifier)] in
        match m.(m_start), m.(m_end) with
        | Some start, Some end_ =>
            expand_chunk configs m full_result start end_
        | _, _ => ret []
        end
    end
| _ =>
    log ERROR NoChunkMetadata ;;
    ret []
end.

(** The body of the loop over the identifiers, lines 93-148. *)
Definition reconcile (collection : Collection w) (identifier : string)
: M (list StructuredResult) :=
configs <- get_configs ;;
b <- isfile w identifier ;;
if b then file_record configs identifier
else if QueryInclude.mem QueryInclude.chunk configs.(Config.include) then
  chunk_record collection configs identifier
else
  log WARNING (StaleFile identifier) ;;
  ret [].

(** The body of the second loop, lines 149-151. *)
Definition normalise (result : StructuredResult) : M StructuredResult :=
match dict_get "path" result with
| None => ret result
| Some (VStr p) => ret (dict_set "path" (VStr (w.(cleanup_path) p)) result)
| Some (VInt _) => raise TypeError
end.

Definition build_query_results (collection : Collection w)
: M (list StructuredResult) :=
identifiers <- get_query_result_files collection ;;
structured_result <- for_each (reconcile collection) identifiers ;;
map_m normalise structured_result.

(** ** [query] *)

(** Lines 165-183: the collection, or the exit status of an early return. *)
Definition resolve_collection (configs : Config.t) : M (Z + Collection w) :=
try_except
  (emit EvGetCollection ;;
   collection <- lift (w.(get_collection) configs) ;;
   ok <- lift (w.(verify_ef) collection configs) ;;
   ret (if ok then inr collection else inl 1))
  (fun e =>
     match e with
     | ValueError | InvalidCollectionException
     | InvalidDimensionException | IndexError => true
     | _ => false
     end)
  (fun e =>
     match e with
     | InvalidDimensionException =>
         log ERROR DifferentEmbeddingModel ;; ret (inl 1)
     | IndexError =>
         log ERROR FailedToGetCollection ;; ret (inl 1)
     | _ =>
         log ERROR (NoCollection e) ;; ret (inl 1)
     end).

(** Lines 188-195: the check for line range metadata. *)
Definition presence_clause : dict pyval := [("start", PDict [("$gte", PInt 0)])].

Definition fallback (collection : Collection w) : M unit :=
configs <- get_configs ;;
if QueryInclude.mem QueryInclude.chunk configs.(Config.include) then
  probe <- get_where collection presence_clause ;;
  match probe.(g_ids) with
  | [] =>
      log WARNING FallingBack ;;
      modify_configs
        (Config.set_include [QueryInclude.path; QueryInclude.document])
  | _ => ret tt
  end
else ret tt.

(** Lines 204-211: the output. *)
Fixpoint print_results (include : list QueryInclude.t)
       (structured_result : list StructuredResult) : M unit :=
match structured_result with
| [] => ret tt
| result :: rest =>
    map_m (fun item =>
             emit (EvPrint
                     (PField item
                             (dict_get (QueryInclude.value item) result))))
          include ;;
    match rest with
    | [] => ret tt
    | _ => emit (EvPrint PBlank) ;; print_results include rest
    end
end.

Definition is_RerankerError (e : Exc) : bool :=
match e with RerankerError => true | _ => false end.

(** Lines 197-212: the results are built and printed. *)
Definition respond (collection : Collection w) : M Z :=
r <- try_except
       (structured_result <- build_query_results collection ;;
        ret (Some structured_result))
       is_RerankerError
       (fun _ => log ERROR RerankerFailed ;; ret None) ;;
match r with
| None => ret 1
| Some structured_result =>
    configs <- get_configs ;;
    (if configs.(Config.pipe) then
       emit (EvPrint (PJson structured_result))
     else print_results configs.(Config.include) structured_result) ;;
    ret 0
end.

Definition query : M Z :=
configs <- get_configs ;;
if QueryInclude.mem QueryInclude.chunk configs.(Config.include)
   && QueryInclude.mem QueryInclude.document configs.(Config.include)
then
  log ERROR ChunkAndDocument ;;
  ret 1
else
  emit EvConnect ;;
  r <- resolve_collection configs ;;
  match r with
  | inl status => ret status
  | inr collection =>
      (if configs.(Config.pipe) then ret tt else emit (EvPrint PStart)) ;;
      fallback collection ;;
      respond collection
  end.
End Query.


(** * Notions used in the statements *)

(** ** Properties of computations *)

(** [m] relates the configuration it is given to the one it leaves. *)
Definition preserves (R : Config.t -> Config.t -> Prop) {A} (m : M A) : Prop :=
  forall c, R c (cfg (m c)).

(** Every action of [m] satisfies [P]. *)
Definition emits_only (P : Event -> Prop) {A} (m : M A) : Prop :=
  forall c, Forall P (trace (m c)).

Definition is_embed (ev : Event) : bool :=
  match ev with EvEmbed _ => true | _ => false end.

Definition is_probe (ev : Event) : bool :=
  match ev with EvGetWhere _ => true | _ => false end.

Definition is_query (ev : Event) : bool :=
  match ev with EvQuery _ _ => true | _ => false end.

(** Actions that reach neither the embedding function nor the search:
    log records, counts and file system lookups. *)
Definition quiet (ev : Event) : Prop :=
  match ev with
  | EvLog _ _ | EvCount | EvExpandGlobs _ | EvIsFile _ => True
  | _ => False
  end.

(** [m] performs no action selected by [p]. *)
Definition silent (p : Event -> bool) {A} (m : M A) : Prop :=
  emits_only (fun ev => p ev = false) m.

(** The actions of reconciliation and output: file lookups and reads,
    lookups of one identifier, log records and prints. *)
Definition reconciling (ev : Event) : Prop :=
  match ev with
  | EvIsFile _ | EvOpen _ | EvGetIds _ | EvLog _ _ | EvPrint _ => True
  | _ => False
  end.

(** ** What [retrieve] does, step by step *)

(** The filter argument of [collection.query], from the configuration the
    [try] body reads. *)
Definition sent_filter (configs : Config.t) : option (dict pyval) :=
  let filter :=
    match configs.(Config.query_exclude) with
    | [] => []
    | excluded => exclusion_clause excluded
    end in
  let filter :=
    if QueryInclude.mem QueryInclude.chunk configs.(Config.include) then
      if truthy filter then
        [("$and", PList [PDict filter; PDict [("$gte", PInt 0)]])]
      else dict_set "start" (PDict [("$gte", PInt 0)]) filter
    else filter in
  if truthy filter then Some filter else None.

(** The actions of [retrieve] before the embedding function is called. *)
Definition planning_events (w : World) (collection : Collection w)
           (configs : Config.t) : list Event :=
  match configs.(Config.query_exclude) with
  | [] => []
  | excluded => [EvLog INFO (Excluding (List.length excluded))]
  end ++
  if QueryInclude.mem QueryInclude.chunk configs.(Config.include) then []
  else if 0 <? configs.(Config.query_multiplier) then
    [EvCount; EvCount;
     EvLog INFO
           (QueryingChunks
              (Z.min (configs.(Config.n_result) * configs.(Config.query_multiplier))
                     collection.(coll_count)))]
  else [EvCount].

(** ** The specification's side *)

(** The candidate count of the Retrieval Planner, in the specification's
    words: [n_result] in chunk mode, otherwise [min (n * m) total] for a
    positive multiplier and the full count for the others. *)
Definition candidate_count (chunk_mode : bool) (n m total : Z) : Z :=
  if chunk_mode then n
  else if 0 <? m then Z.min (n * m) total
  else total.

(** The lines of a file with index [start] through [end_], both included. *)
Definition lines_between (lines : list string) (start end_ : nat)
  : list string :=
  flat_map (fun i => match nth_error lines i with
                     | Some l => [l]
                     | None => []
                     end)
           (seq start (S end_ - start)).

(** The exclusion patterns expanded, kept when they are existing files, and
    made absolute. *)
Definition excluded_paths (w : World) (patterns : list string) : list string :=
  map (fun i => w.(expand_path) i true)
      (filter (fun i => match w.(fs) i with Some _ => true | None => false end)
              (w.(expand_globs) patterns)).

(** All fields but [query_exclude] and [include] agree. *)
Definition same_but_exclude_include (c c' : Config.t) : Prop :=
  c'.(Config.query) = c.(Config.query) /\
  c'.(Config.n_result) = c.(Config.n_result) /\
  c'.(Config.query_multiplier) = c.(Config.query_multiplier) /\
  c'.(Config.use_absolute_path) = c.(Config.use_absolute_path) /\
  c'.(Config.project_root) = c.(Config.project_root) /\
  c'.(Config.pipe) = c.(Config.pipe) /\
  c'.(Config.other_fields) = c.(Config.other_fields).

(** [r] is [raw] with its path, if it has one, cleaned up. *)
Definition normalised (w : World) (raw r : StructuredResult) : Prop :=
  (dict_get "path" raw = None /\ r = raw) \/
  (exists p, dict_get "path" raw = Some (VStr p) /\
             r = dict_set "path" (VStr (w.(cleanup_path) p)) raw).

(** The records of the first loop of [build_query_results], before the
    paths are cleaned up. *)
Definition reconciled (w : World) (collection : Collection w)
  : M (list StructuredResult) :=
  bind (get_query_result_files collection)
       (fun identifiers => for_each (reconcile collection) identifiers).

(** The filter of a chunk query with exclusions, as it is described:
    [{"$and": [{"path": {"$nin": excluded}}, {"start": {"$gte": 0}}]}] *)
Definition described_chunk_filter (excluded : list string) : dict pyval :=
  [("$and", PList [PDict (exclusion_clause excluded); PDict presence_clause])].

(** The field or operator [k] occurs as a key somewhere in a filter. *)
Fixpoint mentions (k : string) (v : pyval) : bool :=
  match v with
  | PInt _ | PStr _ => false
  | PList l => existsb (mentions k) l
  | PDict d =>
      existsb (fun kv => match kv with
                         | (k', v') => String.eqb k k' || mentions k v'
                         end) d
  end.

(** The record of a chunk whose metadata has the line range [start],
    [end_] and the path [p], where [text] is what the file [p] holds now. *)
Definition chunk_result (w : World) (configs : Config.t)
           (identifier p text : string) (start end_ : Z) : StructuredResult :=
  [("chunk", VStr (join (py_slice (readlines text) start (end_ + 1))));
   ("chunk_id", VStr identifier);
   ("start_line", VInt start);
   ("end_line", VInt end_)]
  ++ if QueryInclude.mem QueryInclude.path configs.(Config.include) then
       [("path", VStr (if configs.(Config.use_absolute_path) then p
                       else w.(relpath) p configs.(Config.project_root)))]
     else [].

(** The keys of a record, by the branch that made it. *)
Definition record_keys (c : Config.t) (r : StructuredResult) : Prop :=
  incl (keys r) (map QueryInclude.value c.(Config.include)) \/
  (QueryInclude.mem QueryInclude.chunk c.(Config.include) = true /\
   keys r = ["chunk"; "chunk_id"; "start_line"; "end_line"]
            ++ if QueryInclude.mem QueryInclude.path c.(Config.include)
               then ["path"] else []).

(** The keys a chunk record has besides the requested ones. *)
Definition chunk_keys : list string := ["chunk_id"; "start_line"; "end_line"].

(** ** A small world to run the code in *)

Fixpoint strip_prefix (pre s : string) : option string :=
  match pre, s with
  | EmptyString, _ => Some s
  | String a pre', String b s' =>
      if Ascii.eqb a b then strip_prefix pre' s' else None
  | _, EmptyString => None
  end.

Definition demo_relpath (p root : string) : string :=
  match strip_prefix (String.append root "/") p with
  | Some r => String.append "./" r
  | None => p
  end.

Definition demo_cleanup (p : string) : string :=
  match strip_prefix "./" p with Some r => r | None => p end.

Definition demo_files : dict string :=
  [("/repo/x.py", "hello");
   ("/repo/lib.py",
    String.concat (String newline EmptyString) ["l0"; "l1"; "l2"; "l3"; ""]);
   ("/repo/skip.py", "secret")].

(** Chunk [c1] has a line range, [c2] only a path, [c3] no metadata, and
    the file of [c4] is gone. *)
Definition demo_chunks (identifier : string) : GetResult :=
  if String.eqb identifier "c1" then
    mkGet ["c1"] (Some [mkMeta (Some "/repo/lib.py") (Some 1) (Some 2)])
          (Some ["indexed text"])
  else if String.eqb identifier "c2" then
    mkGet ["c2"] (Some [mkMeta (Some "/repo/lib.py") None None])
          (Some ["indexed text"])
  else if String.eqb identifier "c4" then
    mkGet ["c4"] (Some [mkMeta (Some "/repo/gone.py") (Some 0) (Some 0)])
          (Some ["indexed text"])
  else mkGet [] (Some []) (Some []).

(** An index of [total] records; [tagged] are the ones with a line range and
    [hits] the identifiers a query comes back with. *)
Definition demo_collection (total : Z) (tagged hits : list string)
  : AsyncCollection unit (list string) :=
  {| coll_count := total;
     coll_get_where := fun _ => mkGet tagged None None;
     coll_get_ids := demo_chunks;
     coll_query := fun _ _ _ => inr hits |}.

Definition demo_world (total : Z) (tagged hits : list string) : World :=
  {| Vec := unit;
     QR := list string;
     fs := fun p => dict_get p demo_files;
     expand_globs := fun patterns => patterns;
     expand_path := fun p _ => p;
     abspath := fun p => p;
     relpath := demo_relpath;
     cleanup_path := demo_cleanup;
     string_chunker := fun _ q => [q];
     embedding_function := fun _ chunks => inr (map (fun _ => tt) chunks);
     reranker := fun _ results => inr results;
     get_collection := fun _ => inr (demo_collection total tagged hits);
     verify_ef := fun _ _ => inr true |}.

Definition demo_configs (include : list QueryInclude.t)
           (exclude : list string) : Config.t :=
  {| Config.query := Some ["needle"];
     Config.query_exclude := exclude;
     Config.n_result := 1;
     Config.query_multiplier := -1;
     Config.include := include;
     Config.use_absolute_path := false;
     Config.project_root := "/repo";
     Config.pipe := true;
     Config.other_fields := [("reranker", PStr "CrossEncoderReranker")] |}.


(** * Further notions: errors, output and other worlds *)

Definition is_get (ev : Event) : bool :=
  match ev with EvGetWhere _ | EvGetIds _ => true | _ => false end.

Definition is_rerank (ev : Event) : bool :=
  match ev with EvRerank => true | _ => false end.

Definition is_print (ev : Event) : bool :=
  match ev with EvPrint _ => true | _ => false end.

Definition is_blank (ev : Event) : bool :=
  match ev with EvPrint PBlank => true | _ => false end.

Definition is_field (ev : Event) : bool :=
  match ev with EvPrint (PField _ _) => true | _ => false end.

(** The exceptions the [except] clauses of lines 169-183 name. *)
Definition handled (e : Exc) : bool :=
  match e with
  | ValueError | InvalidCollectionException
  | InvalidDimensionException | IndexError => true
  | _ => false
  end.

(** The record each of them is logged with. *)
Definition resolution_message (e : Exc) : Msg :=
  match e with
  | InvalidDimensionException => DifferentEmbeddingModel
  | IndexError => FailedToGetCollection
  | _ => NoCollection e
  end.

(** The path of an existing file as the first branch writes it. *)
Definition output_path (w : World) (configs : Config.t) (identifier : string)
  : string :=
  if configs.(Config.use_absolute_path) then w.(abspath) identifier
  else w.(relpath) identifier configs.(Config.project_root).

(** One labelled block of the human readable output. *)
Definition result_block (include : list QueryInclude.t)
           (result : StructuredResult) : list Event :=
  map (fun item =>
         EvPrint (PField item (dict_get (QueryInclude.value item) result)))
      include.

(** Blocks with a separator between neighbours, none after the last. *)
Fixpoint intersperse (sep : list Event) (blocks : list (list Event))
  : list Event :=
  match blocks with
  | [] => []
  | [b] => b
  | b :: rest => b ++ sep ++ intersperse sep rest
  end.

Definition human_output (include : list QueryInclude.t)
           (results : list StructuredResult) : list Event :=
  intersperse [EvPrint PBlank] (map (result_block include) results).

(** The record of an existing file: lines 98-105. *)
Definition file_result (w : World) (configs : Config.t)
           (identifier content : string) : Exc + StructuredResult :=
  restrict [("path", VStr (output_path w configs identifier));
            ("document", VStr content)]
           configs.(Config.include) [].




(** An index whose answers are all given: [answer] is what a search comes
    back with and [lookup] what is stored under an identifier. *)
Definition custom_collection (total : Z) (tagged : list string)
           (lookup : string -> GetResult) (answer : Exc + list string)
  : AsyncCollection unit (list string) :=
  {| coll_count := total;
     coll_get_where := fun _ => mkGet tagged None None;
     coll_get_ids := lookup;
     coll_query := fun _ _ _ => answer |}.

(** The small world with the outcomes of the collaborators given. *)
Definition custom_world (resolved : Exc + AsyncCollection unit (list string))
           (verified : Exc + bool)
           (embedded : Exc + list unit)
           (reranked : list string -> Exc + list string) : World :=
  {| Vec := unit;
     QR := list string;
     fs := fun p => dict_get p demo_files;
     expand_globs := fun patterns => patterns;
     expand_path := fun p _ => p;
     abspath := fun p => p;
     relpath := demo_relpath;
     cleanup_path := demo_cleanup;
     string_chunker := fun _ q => [q; String.append q "!"];
     embedding_function := fun _ _ => embedded;
     reranker := fun _ results => reranked results;
     get_collection := fun _ => resolved;
     verify_ef := fun _ _ => verified |}.


(** * Properties *)

(** ** Membership in the output mode *)

Lemma QueryInclude_eqb_spec a b : reflect (a = b) (QueryInclude.eqb a b).
Proof. destruct a, b; constructor; congruence. Qed.

Lemma QueryInclude_mem_In k l : QueryInclude.mem k l = true <-> In k l.
Proof.
  unfold QueryInclude.mem. rewrite existsb_exists. split.
  - intros [x [Hin Heq]]. destruct (QueryInclude_eqb_spec k x); congruence.
  - intros Hin. exists k. split; [assumption|].
    destruct (QueryInclude_eqb_spec k k); congruence.
Qed.

(** ** Reasoning about [M] *)

Lemma outcome_eta A (o : Outcome A) : o = mkOut o.(cfg) o.(trace) o.(res).
Proof. destruct o; reflexivity. Qed.

Lemma bind_inr A B (m : M A) (f : A -> M B) c a :
  res (m c) = inr a ->
  bind m f c =
  mkOut (cfg (f a (cfg (m c)))) (trace (m c) ++ trace (f a (cfg (m c))))
        (res (f a (cfg (m c)))).
Proof. intros H. unfold bind. rewrite H. reflexivity. Qed.

Lemma bind_inl A B (m : M A) (f : A -> M B) c e :
  res (m c) = inl e ->
  bind m f c = mkOut (cfg (m c)) (trace (m c)) (inl e).
Proof. intros H. unfold bind. rewrite H. reflexivity. Qed.

(** The laws of the monad, as they are used to run a prefix of a body. *)
Lemma bind_ret A B (a : A) (f : A -> M B) c : bind (ret a) f c = f a c.
Proof. unfold bind, ret. cbn. symmetry. apply outcome_eta. Qed.

Lemma bind_get_configs B (f : Config.t -> M B) c : bind get_configs f c = f c c.
Proof. unfold bind, get_configs. cbn. symmetry. apply outcome_eta. Qed.

Lemma bind_modify_configs B g (f : unit -> M B) c :
  bind (modify_configs g) f c = f tt (g c).
Proof. unfold bind, modify_configs. cbn. symmetry. apply outcome_eta. Qed.

Lemma bind_emit B e (f : unit -> M B) c :
  bind (emit e) f c =
  mkOut (cfg (f tt c)) (e :: trace (f tt c)) (res (f tt c)).
Proof. reflexivity. Qed.

Lemma bind_lift_inr A B (a : A) (f : A -> M B) c :
  bind (lift (inr a)) f c = f a c.
Proof. unfold bind, lift. cbn. symmetry. apply outcome_eta. Qed.

Lemma bind_lift_inl A B e (f : A -> M B) c :
  bind (lift (inl e)) f c = mkOut c [] (inl e).
Proof. reflexivity. Qed.

Lemma bind_raise A B e (f : A -> M B) c :
  bind (raise e) f c = mkOut c [] (inl e).
Proof. reflexivity. Qed.

Lemma bind_bind A B C (m : M A) (f : A -> M B) (g : B -> M C) c :
  bind (bind m f) g c = bind m (fun a => bind (f a) g) c.
Proof.
  unfold bind. destruct (res (m c)) as [e|a]; cbn; [reflexivity|].
  destruct (res (f a (cfg (m c)))); cbn; rewrite ?app_assoc; reflexivity.
Qed.

Lemma bind_run A B (m : M A) (f : A -> M B) c c1 t1 a :
  m c = mkOut c1 t1 (inr a) ->
  bind m f c =
  mkOut (cfg (f a c1)) (t1 ++ trace (f a c1)) (res (f a c1)).
Proof. intros H. unfold bind. rewrite H. reflexivity. Qed.

(** Case analysis on the scrutinee of the first [match] of the goal. *)
Ltac case_match :=
  match goal with
  | |- context [match ?x with _ => _ end] => destruct x eqn:?
  end.

Ltac case_match_in H :=
  match type of H with
  | context [match ?x with _ => _ end] => destruct x eqn:?
  end.

(** ** What a computation leaves of the configuration *)

Section Preserves.
Variable R : Config.t -> Config.t -> Prop.
Hypothesis R_refl : forall c, R c c.
Hypothesis R_trans : forall a b c, R a b -> R b c -> R a c.

Lemma preserves_ret A (a : A) : preserves R (ret a).
Proof. intros c. apply R_refl. Qed.

Lemma preserves_raise A e : preserves R (@raise A e).
Proof. intros c. apply R_refl. Qed.

Lemma preserves_lift A (r : Exc + A) : preserves R (lift r).
Proof. intros c. apply R_refl. Qed.

Lemma preserves_emit e : preserves R (emit e).
Proof. intros c. apply R_refl. Qed.

Lemma preserves_get_configs : preserves R get_configs.
Proof. intros c. apply R_refl. Qed.

Lemma preserves_bind A B (m : M A) (f : A -> M B) :
preserves R m -> (forall a, preserves R (f a)) -> preserves R (bind m f).
Proof.
intros Hm Hf c. unfold bind. destruct (res (m c)) as [e|a] eqn:E; simpl.
- apply Hm.
- eapply R_trans; [apply Hm | apply Hf].
Qed.

Lemma preserves_try_except A (m : M A) handles h :
preserves R m -> (forall e, preserves R (h e)) ->
preserves R (try_except m handles h).
Proof.
intros Hm Hh c. unfold try_except.
destruct (res (m c)) as [e|a] eqn:E; [destruct (handles e)|]; simpl;
  try apply Hm.
eapply R_trans; [apply Hm | apply Hh].
Qed.

Lemma preserves_for_each A B (f : A -> M (list B)) l :
(forall a, preserves R (f a)) -> preserves R (for_each f l).
Proof.
intros Hf. induction l as [|a l IH]; simpl.
- apply preserves_ret.
- apply preserves_bind; [apply Hf | intros bs].
  apply preserves_bind; [apply IH | intros rest; apply preserves_ret].
Qed.

Lemma preserves_map_m A B (f : A -> M B) l :
(forall a, preserves R (f a)) -> preserves R (map_m f l).
Proof.
intros Hf. induction l as [|a l IH]; simpl.
- apply preserves_ret.
- apply preserves_bind; [apply Hf | intros b].
  apply preserves_bind; [apply IH | intros rest; apply preserves_ret].
Qed.
End Preserves.

(** ** What a computation may emit *)

Section EmitsOnly.
Variable P : Event -> Prop.

Lemma emits_only_ret A (a : A) : emits_only P (ret a).
Proof. intros c. constructor. Qed.

Lemma emits_only_raise A e : emits_only P (@raise A e).
Proof. intros c. constructor. Qed.

Lemma emits_only_lift A (r : Exc + A) : emits_only P (lift r).
Proof. intros c. constructor. Qed.

Lemma emits_only_get_configs : emits_only P get_configs.
Proof. intros c. constructor. Qed.

Lemma emits_only_modify_configs f : emits_only P (modify_configs f).
Proof. intros c. constructor. Qed.

Lemma emits_only_emit e : P e -> emits_only P (emit e).
Proof. intros H c. simpl. auto. Qed.

Lemma emits_only_bind A B (m : M A) (f : A -> M B) :
emits_only P m -> (forall a, emits_only P (f a)) -> emits_only P (bind m f).
Proof.
intros Hm Hf c. unfold bind. destruct (res (m c)) as [e|a] eqn:E; simpl.
- apply Hm.
- apply Forall_app. split; [apply Hm | apply Hf].
Qed.

Lemma emits_only_try_except A (m : M A) handles h :
emits_only P m -> (forall e, emits_only P (h e)) ->
emits_only P (try_except m handles h).
Proof.
intros Hm Hh c. unfold try_except.
destruct (res (m c)) as [e|a] eqn:E; [destruct (handles e)|]; simpl;
  try apply Hm.
apply Forall_app. split; [apply Hm | apply Hh].
Qed.

Lemma emits_only_for_each A B (f : A -> M (list B)) l :
(forall a, emits_only P (f a)) -> emits_only P (for_each f l).
Proof.
intros Hf. induction l as [|a l IH]; simpl.
- apply emits_only_ret.
- apply emits_only_bind; [apply Hf | intros bs].
  apply emits_only_bind; [apply IH | intros rest; apply emits_only_ret].
Qed.

Lemma emits_only_map_m A B (f : A -> M B) l :
(forall a, emits_only P (f a)) -> emits_only P (map_m f l).
Proof.
intros Hf. induction l as [|a l IH]; simpl.
- apply emits_only_ret.
- apply emits_only_bind; [apply Hf | intros b].
  apply emits_only_bind; [apply IH | intros rest; apply emits_only_ret].
Qed.
End EmitsOnly.

(** Both kinds of goals are closed by following the structure of the code. *)
Ltac step_preserves :=
  first
    [ apply preserves_bind; [assumption | | intros ?]
    | apply preserves_try_except; [assumption | | intros ?]
    | apply preserves_for_each; [assumption | assumption | intros ?]
    | apply preserves_map_m; [assumption | assumption | intros ?]
    | solve [apply preserves_ret; assumption]
    | solve [apply preserves_raise; assumption]
    | solve [apply preserves_lift; assumption]
    | solve [apply preserves_emit; assumption]
    | solve [apply preserves_get_configs; assumption] ].

Ltac step_emits :=
  first
    [ apply emits_only_bind; [ | intros ?]
    | apply emits_only_try_except; [ | intros ?]
    | apply emits_only_for_each; intros ?
    | apply emits_only_map_m; intros ?
    | apply emits_only_ret
    | apply emits_only_raise
    | apply emits_only_lift
    | apply emits_only_get_configs
    | apply emits_only_modify_configs
    | apply emits_only_emit; simpl; solve [trivial | discriminate | congruence] ].

(** ** The exclusion list *)

(** A loop whose body always succeeds and leaves the configuration alone. *)
Lemma for_each_total A B (f : A -> M (list B)) (tr : A -> list Event)
      (g : A -> list B) (l : list A) c :
  (forall a c, f a c = mkOut c (tr a) (inr (g a))) ->
  for_each f l c = mkOut c (flat_map tr l) (inr (flat_map g l)).
Proof.
  intros Hf. induction l as [|a l IH]; [reflexivity|].
  cbn [for_each flat_map]. unfold bind. rewrite Hf. cbn.
  rewrite IH. cbn. rewrite app_nil_r. reflexivity.
Qed.

Lemma existing_excludes_loop (w : World) (l : list string) c :
  for_each (fun i => bind (isfile w i)
                          (fun b => ret (if b then [w.(expand_path) i true]
                                         else [])))
           l c =
  mkOut c (map EvIsFile l)
        (inr (map (fun i => w.(expand_path) i true)
                  (filter (fun i => match w.(fs) i with
                                    | Some _ => true
                                    | None => false
                                    end) l))).
Proof.
  rewrite for_each_total
    with (tr := fun i => [EvIsFile i])
         (g := fun i => match w.(fs) i with
                        | Some _ => [w.(expand_path) i true]
                        | None => []
                        end).
  - assert (Ht : flat_map (fun i => [EvIsFile i]) l = map EvIsFile l)
      by (induction l as [|i l IH]; cbn; congruence).
    assert (Hr : flat_map (fun i => match w.(fs) i with
                                    | Some _ => [w.(expand_path) i true]
                                    | None => []
                                    end) l
                 = map (fun i => w.(expand_path) i true)
                       (filter (fun i => match w.(fs) i with
                                         | Some _ => true
                                         | None => false
                                         end) l)).
    { clear Ht. induction l as [|i l IH]; [reflexivity|].
      cbn. rewrite IH. destruct (fs w i); reflexivity. }
    rewrite Ht, Hr. reflexivity.
  - intros i c0. unfold bind, isfile, emit, ret. cbn.
    destruct (fs w i); reflexivity.
Qed.

(** The comprehension neither fails nor touches the configuration. *)
Lemma existing_excludes_run (w : World) (patterns : list string) c :
  existing_excludes w patterns c =
  mkOut c (EvExpandGlobs patterns :: map EvIsFile (w.(expand_globs) patterns))
        (inr (excluded_paths w patterns)).
Proof.
  unfold existing_excludes, bind at 1. cbn.
  rewrite existing_excludes_loop. reflexivity.
Qed.

(** [get_query_result_files] up to the emptiness test. *)
Lemma get_query_result_files_unfold (w : World) (collection : Collection w) c :
  let c' := Config.set_query_exclude
              (excluded_paths w c.(Config.query_exclude)) c in
  let prefix := EvExpandGlobs c.(Config.query_exclude)
                :: map EvIsFile (w.(expand_globs) c.(Config.query_exclude))
                ++ [EvCount] in
  let k : M (list string) :=
    if collection.(coll_count) =? 0 then bind (log ERROR EmptyCollection)
                                              (fun _ => ret [])
    else bind (try_except
                 (bind (retrieve collection (query_chunks_of w c))
                       (fun results => ret (Some results)))
                 is_IndexError (fun _ => ret None))
              (fun r => match r with
                        | None => ret []
                        | Some results => rerank w results
                        end) in
  get_query_result_files collection c =
  mkOut (cfg (k c')) (prefix ++ trace (k c')) (res (k c')).
Proof.
  intros c' prefix k. unfold get_query_result_files.
  rewrite bind_get_configs.
  erewrite bind_run by apply existing_excludes_run.
  rewrite bind_modify_configs. fold c'.
  unfold count. rewrite bind_bind, bind_emit, bind_ret. fold k.
  subst prefix. cbn. rewrite <- app_assoc. reflexivity.
Qed.

(** ** Retrieval *)

Lemma exclusion_filter_run (configs c : Config.t) :
  exclusion_filter configs c =
  mkOut c
        match configs.(Config.query_exclude) with
        | [] => []
        | excluded => [EvLog INFO (Excluding (List.length excluded))]
        end
        (inr match configs.(Config.query_exclude) with
             | [] => []
             | excluded => exclusion_clause excluded
             end).
Proof.
  unfold exclusion_filter. destruct (Config.query_exclude configs); reflexivity.
Qed.

(** The planner computes the candidate count of the specification. *)
Lemma plan_run (w : World) (collection : Collection w) configs filter c :
  let chunk_mode :=
    QueryInclude.mem QueryInclude.chunk configs.(Config.include) in
  plan collection configs filter c =
  mkOut c
        (if chunk_mode then []
         else if 0 <? configs.(Config.query_multiplier) then
           [EvCount; EvCount;
            EvLog INFO
                  (QueryingChunks
                     (Z.min (configs.(Config.n_result)
                             * configs.(Config.query_multiplier))
                            collection.(coll_count)))]
         else [EvCount])
        (inr (candidate_count chunk_mode configs.(Config.n_result)
                              configs.(Config.query_multiplier)
                              collection.(coll_count),
              if chunk_mode then
                if truthy filter then
                  [("$and", PList [PDict filter; PDict [("$gte", PInt 0)]])]
                else dict_set "start" (PDict [("$gte", PInt 0)]) filter
              else filter)).
Proof.
  intros chunk_mode. unfold plan, candidate_count. fold chunk_mode.
  destruct chunk_mode.
  - destruct (truthy filter); reflexivity.
  - unfold count. destruct (0 <? Config.query_multiplier configs); reflexivity.
Qed.

(** The body of the [try] statement: what it does and what it returns. *)
Lemma retrieve_run (w : World) (collection : Collection w) query_chunks c :
  let n := candidate_count
             (QueryInclude.mem QueryInclude.chunk c.(Config.include))
             c.(Config.n_result) c.(Config.query_multiplier)
             collection.(coll_count) in
  retrieve collection query_chunks c =
  match w.(embedding_function) c query_chunks with
  | inl e =>
      mkOut c (planning_events collection c ++ [EvEmbed query_chunks]) (inl e)
  | inr vectors =>
      mkOut c (planning_events collection c
               ++ [EvEmbed query_chunks; EvQuery n (sent_filter c)])
            (collection.(coll_query) vectors n (sent_filter c))
  end.
Proof.
  intros n. unfold retrieve.
  rewrite bind_get_configs.
  erewrite bind_run by apply exclusion_filter_run.
  erewrite bind_run by apply plan_run.
  fold n. unfold embed, collection_query, planning_events, sent_filter.
  rewrite bind_bind, bind_get_configs, bind_bind, bind_emit.
  destruct (embedding_function w c query_chunks) as [e|vectors].
  - rewrite bind_lift_inl. cbn. rewrite app_assoc. reflexivity.
  - rewrite bind_lift_inr, bind_emit. cbn.
    rewrite app_assoc. reflexivity.
Qed.

Lemma try_except_run A (m : M A) handles h c :
  try_except m handles h c =
  match res (m c) with
  | inl e =>
      if handles e then
        mkOut (cfg (h e (cfg (m c)))) (trace (m c) ++ trace (h e (cfg (m c))))
              (res (h e (cfg (m c))))
      else m c
  | inr _ => m c
  end.
Proof. reflexivity. Qed.

(** Every run of [get_query_result_files], by the answers of the index, the
    embedding function and the reranker. *)
Lemma get_query_result_files_run (w : World) (collection : Collection w) c :
  let c' := Config.set_query_exclude
              (excluded_paths w c.(Config.query_exclude)) c in
  let query_chunks := query_chunks_of w c in
  let n := candidate_count
             (QueryInclude.mem QueryInclude.chunk c'.(Config.include))
             c'.(Config.n_result) c'.(Config.query_multiplier)
             collection.(coll_count) in
  let prefix := EvExpandGlobs c.(Config.query_exclude)
                :: map EvIsFile (w.(expand_globs) c.(Config.query_exclude))
                ++ [EvCount] in
  let recover (e : Exc) : Exc + list string :=
    if is_IndexError e then inr [] else inl e in
  get_query_result_files collection c =
  if collection.(coll_count) =? 0 then
    mkOut c' (prefix ++ [EvLog ERROR EmptyCollection]) (inr [])
  else
    match w.(embedding_function) c' query_chunks with
    | inl e =>
        mkOut c' (prefix ++ planning_events collection c'
                  ++ [EvEmbed query_chunks])
              (recover e)
    | inr vectors =>
        match collection.(coll_query) vectors n (sent_filter c') with
        | inl e =>
            mkOut c' (prefix ++ planning_events collection c'
                      ++ [EvEmbed query_chunks; EvQuery n (sent_filter c')])
                  (recover e)
        | inr results =>
            mkOut c' (prefix ++ planning_events collection c'
                      ++ [EvEmbed query_chunks; EvQuery n (sent_filter c');
                          EvRerank])
                  (w.(reranker) c' results)
        end
    end.
Proof.
  intros c' query_chunks n prefix recover.
  rewrite get_query_result_files_unfold. fold c' prefix query_chunks.
  destruct (coll_count collection =? 0); [reflexivity|].
  pose proof (retrieve_run collection query_chunks c') as Hr.
  cbv zeta in Hr. fold n in Hr. unfold recover.
  set (body := bind (retrieve collection query_chunks)
                    (fun results => ret (Some results))).
  destruct (embedding_function w c' query_chunks) as [e|vectors];
    [|destruct (coll_query collection vectors n (sent_filter c'))
        as [e|results]].
  - assert (Hbody : body c' = mkOut c' (planning_events collection c'
                                        ++ [EvEmbed query_chunks]) (inl e))
      by (unfold body, bind; rewrite Hr; reflexivity).
    unfold bind, try_except. rewrite Hbody. cbn.
    destruct (is_IndexError e); cbn; rewrite ?app_nil_r, <- ?app_assoc;
      reflexivity.
  - assert (Hbody : body c' =
                    mkOut c' (planning_events collection c'
                              ++ [EvEmbed query_chunks;
                                  EvQuery n (sent_filter c')]) (inl e))
      by (unfold body, bind; rewrite Hr; reflexivity).
    unfold bind, try_except. rewrite Hbody. cbn.
    destruct (is_IndexError e); cbn; rewrite ?app_nil_r, <- ?app_assoc;
      reflexivity.
  - assert (Hbody : body c' =
                    mkOut c' ((planning_events collection c'
                               ++ [EvEmbed query_chunks;
                                   EvQuery n (sent_filter c')]) ++ [])
                          (inr (Some results)))
      by (unfold body, bind; rewrite Hr; reflexivity).
    erewrite bind_run
      by (unfold try_except; rewrite Hbody; reflexivity).
    unfold rerank. rewrite bind_get_configs, bind_emit. cbn.
    rewrite app_nil_r, <- !app_assoc. cbn.
    destruct (reranker w c' results); reflexivity.
Qed.

(** ** Selecting actions from a trace *)

Lemma filter_quiet (p : Event -> bool) (l : list Event) :
  (forall ev, quiet ev -> p ev = false) ->
  Forall quiet l -> filter p l = [].
Proof.
  intros Hp Hl. induction Hl as [|ev l Hev _ IH]; [reflexivity|].
  cbn. rewrite (Hp ev Hev). exact IH.
Qed.

Lemma quiet_not_query ev : quiet ev -> is_query ev = false.
Proof. destruct ev; cbn; intros H; solve [reflexivity | destruct H]. Qed.

Lemma quiet_not_embed ev : quiet ev -> is_embed ev = false.
Proof. destruct ev; cbn; intros H; solve [reflexivity | destruct H]. Qed.

Lemma quiet_not_probe ev : quiet ev -> is_probe ev = false.
Proof. destruct ev; cbn; intros H; solve [reflexivity | destruct H]. Qed.

Lemma quiet_prefix (patterns globbed : list string) :
  Forall quiet (EvExpandGlobs patterns :: map EvIsFile globbed ++ [EvCount]).
Proof.
  constructor; [exact I|]. apply Forall_app. split.
  - apply Forall_forall. intros ev Hin. apply in_map_iff in Hin.
    destruct Hin as [x [<- _]]. exact I.
  - repeat constructor.
Qed.

Lemma quiet_planning (w : World) (collection : Collection w) c :
  Forall quiet (planning_events collection c).
Proof.
  unfold planning_events. apply Forall_app. split.
  - destruct (Config.query_exclude c); repeat constructor.
  - destruct (QueryInclude.mem _ _); [constructor|].
    destruct (0 <? _); repeat constructor.
Qed.

(** The searches, the embedding calls and the probes of a run. *)
Lemma get_query_result_files_select (w : World) (collection : Collection w) c
      (p : Event -> bool) :
  (forall ev, quiet ev -> p ev = false) ->
  let c' := Config.set_query_exclude
              (excluded_paths w c.(Config.query_exclude)) c in
  let query_chunks := query_chunks_of w c in
  let n := candidate_count
             (QueryInclude.mem QueryInclude.chunk c.(Config.include))
             c.(Config.n_result) c.(Config.query_multiplier)
             collection.(coll_count) in
  filter p (trace (get_query_result_files collection c)) =
  if collection.(coll_count) =? 0 then []
  else
    match w.(embedding_function) c' query_chunks with
    | inl e => filter p [EvEmbed query_chunks]
    | inr vectors =>
        match collection.(coll_query) vectors n (sent_filter c') with
        | inl e => filter p [EvEmbed query_chunks; EvQuery n (sent_filter c')]
        | inr results =>
            filter p [EvEmbed query_chunks; EvQuery n (sent_filter c');
                      EvRerank]
        end
    end.
Proof.
  intros Hp c' query_chunks n.
  rewrite get_query_result_files_run. fold c' query_chunks.
  change (candidate_count
            (QueryInclude.mem QueryInclude.chunk (Config.include c'))
            (Config.n_result c') (Config.query_multiplier c')
            (coll_count collection)) with n.
  pose proof (filter_quiet p Hp (quiet_prefix (Config.query_exclude c)
                (expand_globs w (Config.query_exclude c)))) as Hpre.
  pose proof (filter_quiet p Hp (quiet_planning collection c')) as Hplan.
  destruct (coll_count collection =? 0).
  - cbn [trace]. rewrite filter_app, Hpre. cbn. rewrite Hp; [reflexivity|exact I].
  - destruct (embedding_function w c' query_chunks) as [e|vectors];
      [|destruct (coll_query collection vectors n (sent_filter c'))];
      cbn [trace]; rewrite !filter_app, Hpre, Hplan; reflexivity.
Qed.

(** ** Traces of composed computations *)

Lemma trace_bind A B (m : M A) (f : A -> M B) c :
  trace (bind m f c) =
  trace (m c) ++ match res (m c) with
                 | inr a => trace (f a (cfg (m c)))
                 | inl _ => []
                 end.
Proof.
  unfold bind. destruct (res (m c)); cbn; rewrite ?app_nil_r; reflexivity.
Qed.

Lemma res_bind A B (m : M A) (f : A -> M B) c :
  res (bind m f c) =
  match res (m c) with
  | inr a => res (f a (cfg (m c)))
  | inl e => inl e
  end.
Proof. unfold bind. destruct (res (m c)); reflexivity. Qed.

Lemma cfg_bind A B (m : M A) (f : A -> M B) c :
  cfg (bind m f c) =
  match res (m c) with
  | inr a => cfg (f a (cfg (m c)))
  | inl e => cfg (m c)
  end.
Proof. unfold bind. destruct (res (m c)); reflexivity. Qed.

Lemma silent_filter (p : Event -> bool) A (m : M A) c :
  silent p m -> filter p (trace (m c)) = [].
Proof.
  intros H. specialize (H c). induction H as [|ev l Hev _ IH]; [reflexivity|].
  cbn. rewrite Hev. exact IH.
Qed.

(** What follows a computation adds nothing when it is silent. *)
Lemma filter_bind_silent (p : Event -> bool) A B (m : M A) (f : A -> M B) c :
  (forall a, silent p (f a)) ->
  filter p (trace (bind m f c)) = filter p (trace (m c)).
Proof.
  intros Hf. rewrite trace_bind, filter_app.
  destruct (res (m c)) as [e|a]; [apply app_nil_r|].
  rewrite (silent_filter (cfg (m c)) (Hf a)). apply app_nil_r.
Qed.

Lemma filter_try_except_silent (p : Event -> bool) A (m : M A) handles h c :
  (forall e, silent p (h e)) ->
  filter p (trace (try_except m handles h c)) = filter p (trace (m c)).
Proof.
  intros Hh. unfold try_except.
  destruct (res (m c)) as [e|a]; [destruct (handles e)|]; try reflexivity.
  cbn. rewrite filter_app, (silent_filter (cfg (m c)) (Hh e)).
  apply app_nil_r.
Qed.

Lemma emits_only_impl (P Q : Event -> Prop) A (m : M A) :
  (forall ev, P ev -> Q ev) -> emits_only P m -> emits_only Q m.
Proof. intros HPQ Hm c. eapply Forall_impl; [exact HPQ | apply Hm]. Qed.

Lemma reconciling_not_query ev : reconciling ev -> is_query ev = false.
Proof. destruct ev; cbn; intros H; solve [reflexivity | destruct H]. Qed.

Lemma reconciling_not_embed ev : reconciling ev -> is_embed ev = false.
Proof. destruct ev; cbn; intros H; solve [reflexivity | destruct H]. Qed.

Lemma reconciling_not_probe ev : reconciling ev -> is_probe ev = false.
Proof. destruct ev; cbn; intros H; solve [reflexivity | destruct H]. Qed.

(** ** Reconciliation and output neither search nor change the mode *)

Ltac run_emits := repeat (step_emits || case_match).

Lemma reconcile_emits (w : World) (collection : Collection w) identifier :
  emits_only reconciling (reconcile collection identifier).
Proof.
  unfold reconcile, isfile, file_record, chunk_record, expand_chunk, get_ids,
    open_, log.
  run_emits.
Qed.

Lemma normalise_emits (w : World) result :
  emits_only reconciling (normalise w result).
Proof. unfold normalise. run_emits. Qed.

Lemma print_results_emits include structured_result :
  emits_only reconciling (print_results include structured_result).
Proof.
  induction structured_result as [|result rest IH]; cbn [print_results].
  - apply emits_only_ret.
  - step_emits; [run_emits|].
    destruct rest; [apply emits_only_ret|].
    step_emits; [run_emits | exact IH].
Qed.

Ltac run_preserves := repeat (step_preserves || case_match).

Lemma preserves_modify_configs (R : Config.t -> Config.t -> Prop) f :
  (forall c, R c (f c)) -> preserves R (modify_configs f).
Proof. intros H c. apply H. Qed.

Section Unchanged.
Variable w : World.
Variable collection : Collection w.

Let eq_refl_configs : forall c : Config.t, c = c := @eq_refl _.
Let eq_trans_configs : forall a b c : Config.t, a = b -> b = c -> a = c :=
@eq_trans _.

Lemma reconcile_unchanged identifier :
preserves eq (reconcile collection identifier).
Proof.
unfold reconcile, isfile, file_record, chunk_record, expand_chunk, get_ids,
  open_, log.
run_preserves.
Qed.

Lemma normalise_unchanged result : preserves eq (normalise w result).
Proof. unfold normalise. run_preserves. Qed.

Lemma print_results_unchanged include structured_result :
preserves eq (print_results include structured_result).
Proof.
induction structured_result as [|result rest IH]; cbn [print_results].
- run_preserves.
- step_preserves; [run_preserves|].
  destruct rest; [run_preserves|].
  step_preserves; [run_preserves | exact IH].
Qed.
End Unchanged.

Lemma cfg_unchanged A (m : M A) c : preserves eq m -> cfg (m c) = c.
Proof. intros H. symmetry. apply H. Qed.

Lemma cfg_bind_unchanged A B (m : M A) (f : A -> M B) c :
  (forall a, preserves eq (f a)) -> cfg (bind m f c) = cfg (m c).
Proof.
  intros Hf. rewrite cfg_bind. destruct (res (m c)) as [e|a]; [reflexivity|].
  apply cfg_unchanged, Hf.
Qed.

Lemma cfg_try_except_unchanged A (m : M A) handles h c :
  (forall e, preserves eq (h e)) -> cfg (try_except m handles h c) = cfg (m c).
Proof.
  intros Hh. unfold try_except.
  destruct (res (m c)) as [e|a]; [destruct (handles e)|]; try reflexivity.
  cbn. apply cfg_unchanged, Hh.
Qed.

(** ** The configuration and the searches of the whole pipeline *)

Section Pipeline.
Variable w : World.
Variable collection : Collection w.

Let eq_refl_configs : forall c : Config.t, c = c := @eq_refl _.
Let eq_trans_configs : forall a b c : Config.t, a = b -> b = c -> a = c :=
@eq_trans _.

(** The one assignment of [get_query_result_files] is made on every path. *)
Lemma get_query_result_files_cfg c :
cfg (get_query_result_files collection c) =
Config.set_query_exclude (excluded_paths w c.(Config.query_exclude)) c.
Proof.
rewrite get_query_result_files_run.
repeat case_match; reflexivity.
Qed.

Lemma build_query_results_cfg c :
cfg (build_query_results collection c) =
Config.set_query_exclude (excluded_paths w c.(Config.query_exclude)) c.
Proof.
unfold build_query_results. rewrite cfg_bind_unchanged.
- apply get_query_result_files_cfg.
- intros identifiers. step_preserves.
  + step_preserves. apply reconcile_unchanged.
  + step_preserves. apply normalise_unchanged.
Qed.

Lemma build_query_results_select (p : Event -> bool) c :
(forall ev, reconciling ev -> p ev = false) ->
filter p (trace (build_query_results collection c)) =
filter p (trace (get_query_result_files collection c)).
Proof.
intros Hp. unfold build_query_results. apply filter_bind_silent.
intros identifiers. apply emits_only_impl with (P := reconciling);
  [exact Hp|].
step_emits.
- step_emits. apply reconcile_emits.
- step_emits. apply normalise_emits.
Qed.

Lemma respond_cfg c :
cfg (respond collection c) =
Config.set_query_exclude (excluded_paths w c.(Config.query_exclude)) c.
Proof.
unfold respond. rewrite cfg_bind_unchanged.
- rewrite cfg_try_except_unchanged.
  + rewrite cfg_bind_unchanged by (intros; step_preserves).
    apply build_query_results_cfg.
  + intros e. unfold log. run_preserves.
- intros [structured_result|]; [|run_preserves].
  step_preserves; [run_preserves|].
  step_preserves; [|run_preserves].
  case_match; [run_preserves | apply print_results_unchanged].
Qed.

Lemma respond_select (p : Event -> bool) c :
(forall ev, reconciling ev -> p ev = false) ->
filter p (trace (respond collection c)) =
filter p (trace (get_query_result_files collection c)).
Proof.
intros Hp. unfold respond.
rewrite filter_bind_silent.
- rewrite filter_try_except_silent.
  + rewrite filter_bind_silent.
    * apply build_query_results_select, Hp.
    * intros a. apply emits_only_impl with (P := reconciling);
        [exact Hp | step_emits].
  + intros e. apply emits_only_impl with (P := reconciling);
      [exact Hp | unfold log; run_emits].
- intros r. apply emits_only_impl with (P := reconciling); [exact Hp|].
  destruct r as [structured_result|]; [|run_emits].
  step_emits; [run_emits|].
  step_emits; [|run_emits].
  case_match; [run_emits | apply print_results_emits].
Qed.
End Pipeline.

(** ** The driver *)

Lemma fallback_run (w : World) (collection : Collection w) c :
  fallback collection c =
  if QueryInclude.mem QueryInclude.chunk c.(Config.include) then
    match (collection.(coll_get_where) presence_clause).(g_ids) with
    | [] =>
        mkOut (Config.set_include [QueryInclude.path; QueryInclude.document] c)
              [EvGetWhere presence_clause; EvLog WARNING FallingBack] (inr tt)
    | _ => mkOut c [EvGetWhere presence_clause] (inr tt)
    end
  else mkOut c [] (inr tt).
Proof.
  unfold fallback. rewrite bind_get_configs.
  destruct (QueryInclude.mem _ _); [|reflexivity].
  unfold get_where. rewrite bind_bind, bind_emit, bind_ret.
  destruct (g_ids _); reflexivity.
Qed.

Lemma fallback_res (w : World) (collection : Collection w) c :
  res (fallback collection c) = inr tt.
Proof. rewrite fallback_run. repeat case_match; reflexivity. Qed.

Lemma resolve_collection_ok (w : World) (collection : Collection w) configs c :
  w.(get_collection) configs = inr collection ->
  w.(verify_ef) collection configs = inr true ->
  resolve_collection w configs c = mkOut c [EvGetCollection] (inr (inr collection)).
Proof.
  intros Hget Hverify. unfold resolve_collection, try_except.
  rewrite bind_emit, Hget, bind_lift_inr, Hverify, bind_lift_inr.
  reflexivity.
Qed.

Lemma resolve_collection_unchanged (w : World) configs :
  preserves eq (resolve_collection w configs).
Proof.
  pose proof (@eq_refl Config.t) as Hrefl.
  pose proof (@eq_trans Config.t) as Htrans.
  unfold resolve_collection, log. run_preserves.
Qed.

Lemma resolve_collection_emits (w : World) configs :
  emits_only (fun ev => ev = EvGetCollection \/ exists m, ev = EvLog ERROR m)
             (resolve_collection w configs).
Proof.
  unfold resolve_collection, log.
  repeat first
         [ apply emits_only_emit; solve [auto | right; eexists; reflexivity]
         | step_emits | case_match ].
Qed.

(** A collection the driver goes on with is the one [get_collection] gave. *)
Lemma resolve_collection_inr (w : World) configs c (collection : Collection w) :
  res (resolve_collection w configs c) = inr (inr collection) ->
  w.(get_collection) configs = inr collection.
Proof.
  unfold resolve_collection, try_except.
  rewrite bind_emit. cbn [res cfg trace].
  destruct (get_collection w configs) as [e|collection'].
  - rewrite bind_lift_inl. cbn. destruct e; cbn; discriminate.
  - rewrite bind_lift_inr.
    destruct (verify_ef w collection' configs) as [e|[|]].
    + rewrite bind_lift_inl. cbn. destruct e; cbn; discriminate.
    + rewrite bind_lift_inr. cbn. intros H. inversion H. reflexivity.
    + rewrite bind_lift_inr. cbn. discriminate.
Qed.

(** A valid mode and a collection: the driver probes, then responds. *)
Lemma query_resolved (w : World) (collection : Collection w) c :
  QueryInclude.mem QueryInclude.chunk c.(Config.include)
  && QueryInclude.mem QueryInclude.document c.(Config.include) = false ->
  w.(get_collection) c = inr collection ->
  w.(verify_ef) collection c = inr true ->
  query w c =
  mkOut (cfg (respond collection (cfg (fallback collection c))))
        (EvConnect :: EvGetCollection
         :: (if c.(Config.pipe) then [] else [EvPrint PStart])
         ++ trace (fallback collection c)
         ++ trace (respond collection (cfg (fallback collection c))))
        (res (respond collection (cfg (fallback collection c)))).
Proof.
  intros Hmode Hget Hverify. unfold query.
  rewrite bind_get_configs, Hmode, bind_emit.
  erewrite bind_run by (apply resolve_collection_ok; eassumption).
  cbn [app].
  destruct (Config.pipe c).
  - rewrite bind_ret. erewrite bind_inr by apply fallback_res. reflexivity.
  - rewrite bind_emit. erewrite bind_inr by apply fallback_res. reflexivity.
Qed.

Lemma filter_bind (p : Event -> bool) A B (m : M A) (f : A -> M B) c :
  filter p (trace (bind m f c)) =
  filter p (trace (m c)) ++ match res (m c) with
                            | inr a => filter p (trace (f a (cfg (m c))))
                            | inl _ => []
                            end.
Proof.
  rewrite trace_bind, filter_app. destruct (res (m c)); reflexivity.
Qed.

(** The selected actions of a run of the driver that reached a collection. *)
Lemma query_resolved_select (w : World) (collection : Collection w) c
      (p : Event -> bool) :
  p EvConnect = false -> p EvGetCollection = false ->
  (forall ev, reconciling ev -> p ev = false) ->
  QueryInclude.mem QueryInclude.chunk c.(Config.include)
  && QueryInclude.mem QueryInclude.document c.(Config.include) = false ->
  w.(get_collection) c = inr collection ->
  w.(verify_ef) collection c = inr true ->
  filter p (trace (query w c)) =
  filter p (trace (fallback collection c))
  ++ filter p (trace (get_query_result_files
                        collection (cfg (fallback collection c)))).
Proof.
  intros Hconnect Hget_collection Hp Hmode Hget Hverify.
  rewrite (query_resolved _ Hmode Hget Hverify). cbn [trace filter].
  rewrite Hconnect, Hget_collection, !filter_app.
  rewrite respond_select by exact Hp.
  destruct (Config.pipe c); cbn [filter app]; [reflexivity|].
  rewrite (Hp (EvPrint PStart) I). reflexivity.
Qed.

(** * The claims *)

(** ** C7: both [chunk] and [document] *)

(** C7.  When the requested output mode contains both [document] and
    [chunk], [query] returns exit status 1 and its only action is the error
    log record: no connection, no retrieval, no file access, no output, and
    the configuration is left as it was. *)
Theorem chunk_and_document_rejected (w : World) (c : Config.t) :
  QueryInclude.mem QueryInclude.chunk c.(Config.include) = true ->
  QueryInclude.mem QueryInclude.document c.(Config.include) = true ->
  query w c = mkOut c [EvLog ERROR ChunkAndDocument] (inr 1).
Proof.
  intros Hchunk Hdocument. unfold query.
  rewrite bind_get_configs, Hchunk, Hdocument. reflexivity.
Qed.

Lemma chunk_and_document_rejected_witness :
  query (demo_world 3 ["c1"] ["c1"])
        (demo_configs [QueryInclude.chunk; QueryInclude.document] []) =
  mkOut (demo_configs [QueryInclude.chunk; QueryInclude.document] [])
        [EvLog ERROR ChunkAndDocument] (inr 1).
Proof. apply chunk_and_document_rejected; reflexivity. Defined.

(** ** C5: the candidate count *)

(** C5.  Every search [get_query_result_files] sends to the index asks for
    the candidate count of the specification: [n_result] in chunk mode,
    otherwise [min (n_result * query_multiplier) count] for a positive
    multiplier and [count] for the others.  On an index that is not empty,
    and once the query is embedded, exactly one such search is sent. *)
Theorem candidate_count_requested (w : World) (collection : Collection w)
        (c : Config.t) :
  (forall n f,
      In (EvQuery n f) (trace (get_query_result_files collection c)) ->
      n = candidate_count
            (QueryInclude.mem QueryInclude.chunk c.(Config.include))
            c.(Config.n_result) c.(Config.query_multiplier)
            collection.(coll_count)) /\
  (collection.(coll_count) <> 0 ->
   forall vectors,
     w.(embedding_function)
         (Config.set_query_exclude
            (excluded_paths w c.(Config.query_exclude)) c)
         (query_chunks_of w c) = inr vectors ->
     exists f,
       filter is_query (trace (get_query_result_files collection c)) =
       [EvQuery (candidate_count
                   (QueryInclude.mem QueryInclude.chunk c.(Config.include))
                   c.(Config.n_result) c.(Config.query_multiplier)
                   collection.(coll_count)) f]).
Proof.
  pose proof (get_query_result_files_select collection c is_query
                                             quiet_not_query) as Hsel.
  cbv zeta in Hsel. split.
  - intros n f Hin.
    assert (Hq : In (EvQuery n f)
                    (filter is_query
                            (trace (get_query_result_files collection c))))
      by (apply filter_In; split; [exact Hin | reflexivity]).
    rewrite Hsel in Hq.
    repeat case_match_in Hq; cbn in Hq;
      repeat (destruct Hq as [Hq|Hq]; [inversion Hq|]); try reflexivity;
      destruct Hq.
  - intros Hcount vectors Hembed. rewrite Hsel, Hembed.
    destruct (Z.eqb_spec (coll_count collection) 0) as [E|_]; [contradiction|].
    case_match; eexists; reflexivity.
Qed.

Lemma candidate_count_requested_witness :
  exists f,
    filter is_query
           (trace (@get_query_result_files
                     (demo_world 7 [] ["/repo/x.py"])
                     (demo_collection 7 [] ["/repo/x.py"])
                     (Config.mk (Some ["needle"]) [] 2 3
                                [QueryInclude.path; QueryInclude.document]
                                false "/repo" true []))) =
    [EvQuery 6 f].
Proof.
  apply (proj2 (@candidate_count_requested
                  (demo_world 7 [] ["/repo/x.py"])
                  (demo_collection 7 [] ["/repo/x.py"])
                  (Config.mk (Some ["needle"]) [] 2 3
                             [QueryInclude.path; QueryInclude.document]
                             false "/repo" true [])))
    with (vectors := [tt]).
  - cbn. lia.
  - reflexivity.
Defined.

(** ** C6: the empty index *)

(** On an empty index the pipeline stops after the count. *)
Lemma build_query_results_empty (w : World) (collection : Collection w) c :
  collection.(coll_count) = 0 ->
  build_query_results collection c =
  mkOut (Config.set_query_exclude (excluded_paths w c.(Config.query_exclude)) c)
        ((EvExpandGlobs c.(Config.query_exclude)
          :: map EvIsFile (w.(expand_globs) c.(Config.query_exclude))
          ++ [EvCount]) ++ [EvLog ERROR EmptyCollection])
        (inr []).
Proof.
  intros Hcount. unfold build_query_results.
  erewrite bind_run
    by (rewrite get_query_result_files_run, Hcount; reflexivity).
  cbn. rewrite !app_nil_r. reflexivity.
Qed.

(** C6.  Against an empty index ([count() == 0]) the pipeline returns the
    empty result set, and neither the embedding function nor the search is
    ever called: the trace of [build_query_results] consists of the
    expansion of the exclusions, the count and the error log record, and a
    run of [query] on such a collection contains no embedding call. *)
Theorem empty_index_no_embedding (w : World) (collection : Collection w)
        (c : Config.t) :
  collection.(coll_count) = 0 ->
  res (build_query_results collection c) = inr [] /\
  filter is_embed (trace (build_query_results collection c)) = [] /\
  filter is_query (trace (build_query_results collection c)) = [] /\
  (w.(get_collection) c = inr collection ->
   filter is_embed (trace (query w c)) = []).
Proof.
  intros Hcount.
  pose proof (get_query_result_files_select collection) as Hsel.
  cbv zeta in Hsel. rewrite Hcount in Hsel. cbn [Z.eqb] in Hsel.
  repeat split.
  - rewrite build_query_results_empty by exact Hcount. reflexivity.
  - rewrite build_query_results_select by exact reconciling_not_embed.
    apply Hsel, quiet_not_embed.
  - rewrite build_query_results_select by exact reconciling_not_query.
    apply Hsel, quiet_not_query.
  - intros Hget. unfold query. rewrite bind_get_configs.
    destruct (_ && _); [reflexivity|].
    rewrite bind_emit. cbn [trace filter is_embed].
    assert (Hresolve : silent is_embed (resolve_collection w c)).
    { eapply emits_only_impl; [|apply resolve_collection_emits].
      intros ev [->|[m ->]]; reflexivity. }
    rewrite filter_bind, (silent_filter c Hresolve).
    destruct (res (resolve_collection w c c)) as [e|[status|collection']]
      eqn:Hres; [reflexivity | reflexivity |].
    apply resolve_collection_inr in Hres. rewrite Hget in Hres.
    inversion Hres; subst collection'. cbn [app].
    rewrite filter_bind.
    assert (Hstart : filter is_embed
                       (trace ((if Config.pipe c then ret tt
                                else emit (EvPrint PStart))
                                 (cfg (resolve_collection w c c)))) = [])
      by (destruct (Config.pipe c); reflexivity).
    rewrite Hstart. cbn [app]. case_match; [reflexivity|].
    rewrite filter_bind, fallback_res, fallback_run.
    rewrite respond_select by exact reconciling_not_embed.
    rewrite Hsel by exact quiet_not_embed.
    repeat case_match; reflexivity.
Qed.

Lemma empty_index_no_embedding_witness :
  res (@build_query_results (demo_world 0 [] ["/repo/x.py"])
                            (demo_collection 0 [] ["/repo/x.py"])
                            (demo_configs [QueryInclude.path] [])) = inr [] /\
  filter is_embed
         (trace (query (demo_world 0 [] ["/repo/x.py"])
                       (demo_configs [QueryInclude.path] []))) = [].
Proof.
  destruct (@empty_index_no_embedding
              (demo_world 0 [] ["/repo/x.py"])
              (demo_collection 0 [] ["/repo/x.py"])
              (demo_configs [QueryInclude.path] []) eq_refl)
    as [Hres [_ [_ Hquery]]].
  split; [exact Hres | exact (Hquery eq_refl)].
Defined.

(** ** C4: the capability fallback *)

(** Without [chunk] in the mode the filter is the exclusion clause alone,
    and no filter at all when nothing is excluded. *)
Lemma sent_filter_document_mode c :
  QueryInclude.mem QueryInclude.chunk c.(Config.include) = false ->
  sent_filter c =
  match c.(Config.query_exclude) with
  | [] => None
  | excluded => Some (exclusion_clause excluded)
  end.
Proof.
  intros Hmode. unfold sent_filter. rewrite Hmode.
  destruct (Config.query_exclude c); reflexivity.
Qed.

(** C4.  When chunk output is requested (in a valid mode, on a collection
    that was resolved) and the index has no record with [start >= 0], the
    run of [query] is: connect, resolve, probe once, log the warning, then
    the rest of the pipeline run on the configuration whose [include] is
    [path; document].  The probe is the only one of the run, it comes before
    every action of retrieval, and every filter sent to the index is built
    for the downgraded mode: the exclusion clause alone. *)
Theorem fallback_downgrades_once (w : World) (collection : Collection w)
        (c : Config.t) :
  QueryInclude.mem QueryInclude.chunk c.(Config.include) = true ->
  QueryInclude.mem QueryInclude.document c.(Config.include) = false ->
  w.(get_collection) c = inr collection ->
  w.(verify_ef) collection c = inr true ->
  (collection.(coll_get_where) presence_clause).(g_ids) = [] ->
  query w c =
  mkOut (cfg (respond collection
                      (Config.set_include
                         [QueryInclude.path; QueryInclude.document] c)))
        (EvConnect :: EvGetCollection
         :: (if c.(Config.pipe) then [] else [EvPrint PStart])
         ++ [EvGetWhere presence_clause; EvLog WARNING FallingBack]
         ++ trace (respond collection
                           (Config.set_include
                              [QueryInclude.path; QueryInclude.document] c)))
        (res (respond collection
                      (Config.set_include
                         [QueryInclude.path; QueryInclude.document] c))) /\
  Config.include (cfg (query w c)) =
  [QueryInclude.path; QueryInclude.document] /\
  filter is_probe (trace (query w c)) = [EvGetWhere presence_clause] /\
  (forall n f,
      In (EvQuery n f) (trace (query w c)) ->
      f = match excluded_paths w c.(Config.query_exclude) with
          | [] => None
          | excluded => Some (exclusion_clause excluded)
          end).
Proof.
  intros Hchunk Hdocument Hget Hverify Hprobe.
  assert (Hmode : QueryInclude.mem QueryInclude.chunk c.(Config.include)
                  && QueryInclude.mem QueryInclude.document c.(Config.include)
                  = false) by (rewrite Hdocument; apply andb_false_r).
  assert (Hfallback :
            fallback collection c =
            mkOut (Config.set_include
                     [QueryInclude.path; QueryInclude.document] c)
                  [EvGetWhere presence_clause; EvLog WARNING FallingBack]
                  (inr tt))
    by (rewrite fallback_run, Hchunk, Hprobe; reflexivity).
  assert (Hrun := query_resolved _ Hmode Hget Hverify).
  rewrite Hfallback in Hrun. cbn [cfg trace] in Hrun.
  split; [exact Hrun|]. split; [|split].
  - rewrite Hrun. cbn [cfg]. rewrite respond_cfg. reflexivity.
  - rewrite (query_resolved_select _ is_probe eq_refl eq_refl
               reconciling_not_probe Hmode Hget Hverify).
    rewrite Hfallback. cbn [cfg trace].
    pose proof (get_query_result_files_select
                  collection
                  (Config.set_include
                     [QueryInclude.path; QueryInclude.document] c)
                  is_probe quiet_not_probe) as Hsel.
    cbv zeta in Hsel. rewrite Hsel.
    repeat case_match; reflexivity.
  - intros n f Hin.
    assert (Hq : In (EvQuery n f) (filter is_query (trace (query w c))))
      by (apply filter_In; split; [exact Hin | reflexivity]).
    rewrite (query_resolved_select _ is_query eq_refl eq_refl
               reconciling_not_query Hmode Hget Hverify) in Hq.
    rewrite Hfallback in Hq. cbn [cfg trace filter is_query app] in Hq.
    pose proof (get_query_result_files_select
                  collection
                  (Config.set_include
                     [QueryInclude.path; QueryInclude.document] c)
                  is_query quiet_not_query) as Hsel.
    cbv zeta in Hsel. rewrite Hsel in Hq.
    rewrite sent_filter_document_mode in Hq by reflexivity.
    cbn [Config.query_exclude Config.set_query_exclude Config.set_include]
      in Hq.
    repeat case_match_in Hq; cbn in Hq;
      repeat (destruct Hq as [Hq|Hq]; [inversion Hq|]); try reflexivity;
      destruct Hq.
Qed.

Lemma fallback_downgrades_once_witness :
  Config.include
    (cfg (query (demo_world 3 [] ["/repo/x.py"])
                (demo_configs [QueryInclude.chunk; QueryInclude.path] []))) =
  [QueryInclude.path; QueryInclude.document] /\
  filter is_probe
         (trace (query (demo_world 3 [] ["/repo/x.py"])
                       (demo_configs [QueryInclude.chunk; QueryInclude.path]
                                     []))) =
  [EvGetWhere presence_clause].
Proof.
  destruct (@fallback_downgrades_once
              (demo_world 3 [] ["/repo/x.py"])
              (demo_collection 3 [] ["/repo/x.py"])
              (demo_configs [QueryInclude.chunk; QueryInclude.path] [])
              eq_refl eq_refl eq_refl eq_refl eq_refl)
    as [_ [Hinclude [Hprobe _]]].
  split; [exact Hinclude | exact Hprobe].
Defined.

(** ** C10: what a run leaves in the configuration *)

Lemma same_but_refl c : same_but_exclude_include c c.
Proof. repeat split. Qed.

Lemma same_but_trans a b c :
  same_but_exclude_include a b -> same_but_exclude_include b c ->
  same_but_exclude_include a c.
Proof.
  unfold same_but_exclude_include. intros Hab Hbc.
  decompose [and] Hab. decompose [and] Hbc. repeat split; congruence.
Qed.

Lemma preserves_eq_same_but A (m : M A) :
  preserves eq m -> preserves same_but_exclude_include m.
Proof. intros H c. rewrite <- (H c). apply same_but_refl. Qed.

Lemma fallback_same_but (w : World) (collection : Collection w) :
  preserves same_but_exclude_include (fallback collection).
Proof.
  intros c. rewrite fallback_run. repeat case_match; repeat split.
Qed.

Lemma respond_same_but (w : World) (collection : Collection w) :
  preserves same_but_exclude_include (respond collection).
Proof. intros c. rewrite respond_cfg. repeat split. Qed.

Lemma query_same_but (w : World) :
  preserves same_but_exclude_include (query w).
Proof.
  pose proof same_but_refl as Hrefl. pose proof same_but_trans as Htrans.
  unfold query, log.
  step_preserves; [step_preserves|].
  case_match; [run_preserves|].
  step_preserves; [step_preserves|].
  step_preserves; [apply preserves_eq_same_but, resolve_collection_unchanged|].
  case_match; [step_preserves|].
  step_preserves; [case_match; step_preserves|].
  step_preserves; [apply fallback_same_but | apply respond_same_but].
Qed.

(** C10.  A run of [query] changes the configuration it was given, and the
    caller sees the change, in two fields only.  All other fields are left
    as they were on every run.  When the mode is valid and the collection
    is resolved, [query_exclude] ends as the expanded paths of the existing
    files among the expanded exclusion patterns, and [include] ends as
    [path; document] when the fallback fires (chunk requested, empty probe)
    and as it was otherwise; this holds whether the run returns or raises. *)
Theorem query_mutates_configs (w : World) (c : Config.t) :
  same_but_exclude_include c (cfg (query w c)) /\
  (forall collection : Collection w,
      QueryInclude.mem QueryInclude.chunk c.(Config.include)
      && QueryInclude.mem QueryInclude.document c.(Config.include) = false ->
      w.(get_collection) c = inr collection ->
      w.(verify_ef) collection c = inr true ->
      Config.query_exclude (cfg (query w c)) =
      excluded_paths w c.(Config.query_exclude) /\
      Config.include (cfg (query w c)) =
      if QueryInclude.mem QueryInclude.chunk c.(Config.include)
         && match (collection.(coll_get_where) presence_clause).(g_ids) with
            | [] => true
            | _ => false
            end
      then [QueryInclude.path; QueryInclude.document]
      else c.(Config.include)).
Proof.
  split; [apply query_same_but|].
  intros collection Hmode Hget Hverify.
  rewrite (query_resolved _ Hmode Hget Hverify). cbn [cfg].
  rewrite respond_cfg, fallback_run.
  destruct (QueryInclude.mem QueryInclude.chunk (Config.include c));
    [destruct (g_ids _)|]; split; reflexivity.
Qed.

Lemma query_mutates_configs_witness :
  Config.query_exclude
    (cfg (query (demo_world 3 [] ["/repo/x.py"])
                (demo_configs [QueryInclude.chunk; QueryInclude.path]
                              ["/repo/skip.py"; "/repo/none.py"]))) =
  ["/repo/skip.py"] /\
  Config.include
    (cfg (query (demo_world 3 [] ["/repo/x.py"])
                (demo_configs [QueryInclude.chunk; QueryInclude.path]
                              ["/repo/skip.py"; "/repo/none.py"]))) =
  [QueryInclude.path; QueryInclude.document].
Proof.
  exact (proj2 (query_mutates_configs
                  (demo_world 3 [] ["/repo/x.py"])
                  (demo_configs [QueryInclude.chunk; QueryInclude.path]
                                ["/repo/skip.py"; "/repo/none.py"]))
               (demo_collection 3 [] ["/repo/x.py"])
               eq_refl eq_refl eq_refl).
Defined.

(** ** C1: the filter of a chunk query *)

(** Nothing excluded: the presence clause alone, as a field filter. *)
Lemma sent_filter_chunk_alone c :
  QueryInclude.mem QueryInclude.chunk c.(Config.include) = true ->
  c.(Config.query_exclude) = [] ->
  sent_filter c = Some presence_clause.
Proof. intros Hmode Hnone. unfold sent_filter. rewrite Hmode, Hnone. reflexivity. Qed.

(** Something excluded: the second operand of [$and] is [{"$gte": 0}]. *)
Lemma sent_filter_chunk_excluding c x xs :
  QueryInclude.mem QueryInclude.chunk c.(Config.include) = true ->
  c.(Config.query_exclude) = x :: xs ->
  sent_filter c =
  Some [("$and", PList [PDict (exclusion_clause (x :: xs));
                        PDict [("$gte", PInt 0)]])].
Proof. intros Hmode Hsome. unfold sent_filter. rewrite Hmode, Hsome. reflexivity. Qed.

(** C1.  Chunk output with one existing file excluded: the filter that
    reaches the index is [{"$and": [{"path": {"$nin": [...]}}, {"$gte": 0}]}].
    Its second operand names no field; the filter is not the conjunction of
    the exclusion clause with [{"start": {"$gte": 0}}] that is described, and
    [start] occurs nowhere in it, whereas it does in the filter sent when
    nothing is excluded. *)
Theorem chunk_filter_loses_start_field :
  filter is_query
         (trace (@get_query_result_files
                   (demo_world 3 ["c1"] ["c1"])
                   (demo_collection 3 ["c1"] ["c1"])
                   (demo_configs [QueryInclude.chunk] ["/repo/skip.py"]))) =
  [EvQuery 1 (Some [("$and", PList [PDict (exclusion_clause ["/repo/skip.py"]);
                                    PDict [("$gte", PInt 0)]])])] /\
  [("$and", PList [PDict (exclusion_clause ["/repo/skip.py"]);
                   PDict [("$gte", PInt 0)]])]
  <> described_chunk_filter ["/repo/skip.py"] /\
  mentions "start"
           (PDict [("$and", PList [PDict (exclusion_clause ["/repo/skip.py"]);
                                   PDict [("$gte", PInt 0)]])]) = false /\
  mentions "start" (PDict (described_chunk_filter ["/repo/skip.py"])) = true /\
  filter is_query
         (trace (@get_query_result_files
                   (demo_world 3 ["c1"] ["c1"])
                   (demo_collection 3 ["c1"] ["c1"])
                   (demo_configs [QueryInclude.chunk] []))) =
  [EvQuery 1 (Some presence_clause)].
Proof.
  repeat split; try reflexivity.
  unfold described_chunk_filter, presence_clause. intros H. inversion H.
Qed.

(** ** Dictionaries *)

Lemma dict_get_set_same V (k : string) (v : V) (d : dict V) :
  dict_get k (dict_set k v d) = Some v.
Proof.
  induction d as [|[k' v'] d IH]; cbn.
  - rewrite String.eqb_refl. reflexivity.
  - destruct (String.eqb k k') eqn:E; cbn; rewrite E; [reflexivity | exact IH].
Qed.

(** Assigning to a key that is present leaves the keys as they are. *)
Lemma keys_dict_set_present V (k : string) (v v0 : V) (d : dict V) :
  dict_get k d = Some v0 -> keys (dict_set k v d) = keys d.
Proof.
  induction d as [|[k' v'] d IH]; cbn; [discriminate|].
  destruct (String.eqb k k') eqn:E; cbn; [reflexivity|].
  intros H. f_equal. apply IH, H.
Qed.

Lemma keys_dict_set_incl V (k : string) (v : V) (d : dict V) :
  incl (keys (dict_set k v d)) (keys d ++ [k]).
Proof.
  induction d as [|[k' v'] d IH]; cbn.
  - apply incl_refl.
  - destruct (String.eqb k k') eqn:E; cbn.
    + apply incl_cons; [left; reflexivity|].
      apply incl_tl, incl_appl, incl_refl.
    + apply incl_cons; [left; reflexivity|]. apply incl_tl, IH.
Qed.

(** ** Loops that return *)

Lemma for_each_inr A B (f : A -> M (list B)) (l : list A) c rs :
  (forall a, preserves eq (f a)) ->
  res (for_each f l c) = inr rs ->
  exists rss, Forall2 (fun a bs => res (f a c) = inr bs) l rss /\
              rs = List.concat rss.
Proof.
  intros Hf. revert rs. induction l as [|a l IH]; intros rs; cbn [for_each].
  - cbn. intros H. inversion H. exists []. split; [constructor | reflexivity].
  - rewrite res_bind. destruct (res (f a c)) as [e|bs] eqn:Ea; [discriminate|].
    rewrite (cfg_unchanged c (Hf a)), res_bind.
    destruct (res (for_each f l c)) as [e|rest] eqn:El; [discriminate|].
    cbn. intros H. inversion H. subst rs.
    destruct (IH rest eq_refl) as [rss [Hall ->]].
    exists (bs :: rss). split; [constructor; assumption | reflexivity].
Qed.

Lemma map_m_inr A B (f : A -> M B) (l : list A) c rs :
  (forall a, preserves eq (f a)) ->
  res (map_m f l c) = inr rs ->
  Forall2 (fun a b => res (f a c) = inr b) l rs.
Proof.
  intros Hf. revert rs. induction l as [|a l IH]; intros rs; cbn [map_m].
  - cbn. intros H. inversion H. constructor.
  - rewrite res_bind. destruct (res (f a c)) as [e|b] eqn:Ea; [discriminate|].
    rewrite (cfg_unchanged c (Hf a)), res_bind.
    destruct (res (map_m f l c)) as [e|rest] eqn:El; [discriminate|].
    cbn. intros H. inversion H. subst rs.
    constructor; [exact Ea | apply IH; reflexivity].
Qed.

Lemma preserves_eq_for_each A B (f : A -> M (list B)) l :
  (forall a, preserves eq (f a)) -> preserves eq (for_each f l).
Proof.
  intros Hf. apply preserves_for_each; [reflexivity | | exact Hf].
  intros a b c. apply eq_trans.
Qed.

(** The three stages of [build_query_results] when it returns. *)
Lemma build_query_results_inr (w : World) (collection : Collection w) c rs :
  res (build_query_results collection c) = inr rs ->
  let c' := Config.set_query_exclude
              (excluded_paths w c.(Config.query_exclude)) c in
  exists identifiers rss,
    res (get_query_result_files collection c) = inr identifiers /\
    Forall2 (fun identifier bs =>
               res (reconcile collection identifier c') = inr bs)
            identifiers rss /\
    res (reconciled collection c) = inr (List.concat rss) /\
    Forall2 (fun raw r => res (normalise w raw c') = inr r) (List.concat rss) rs.
Proof.
  intros H c'. unfold build_query_results in H. rewrite res_bind in H.
  destruct (res (get_query_result_files collection c)) as [e|identifiers]
    eqn:Eids; [discriminate|].
  rewrite get_query_result_files_cfg in H. fold c' in H.
  rewrite res_bind in H.
  destruct (res (for_each (reconcile collection) identifiers c'))
    as [e|raws] eqn:Eraws; [discriminate|].
  rewrite cfg_unchanged in H
    by (apply preserves_eq_for_each, reconcile_unchanged).
  destruct (@for_each_inr _ _ _ _ _ _ (reconcile_unchanged collection) Eraws)
    as [rss [Hall ->]].
  exists identifiers, rss. repeat split; try assumption.
  - unfold reconciled. rewrite res_bind, Eids, get_query_result_files_cfg.
    exact Eraws.
  - apply map_m_inr; [apply normalise_unchanged | exact H].
Qed.

(** ** The chunk branch of the reconciler *)

Section ChunkBranch.
Variable w : World.
Variable collection : Collection w.
Variable c : Config.t.
Variable identifier : string.
Hypothesis Hnofile : w.(fs) identifier = None.
Hypothesis Hchunk :
QueryInclude.mem QueryInclude.chunk c.(Config.include) = true.

Lemma reconcile_chunk_branch :
reconcile collection identifier c =
mkOut (cfg (chunk_record collection c identifier c))
      (EvIsFile identifier :: trace (chunk_record collection c identifier c))
      (res (chunk_record collection c identifier c)).
Proof.
unfold reconcile, isfile.
rewrite bind_get_configs, bind_bind, bind_emit, bind_ret, Hnofile, Hchunk.
reflexivity.
Qed.

(** Metadata with a line range and a readable file: one record. *)
Lemma reconcile_chunk_with_range m ms text texts start end_ p content :
(collection.(coll_get_ids) identifier).(g_metadatas) = Some (m :: ms) ->
(collection.(coll_get_ids) identifier).(g_documents) = Some (text :: texts) ->
m.(m_start) = Some start ->
m.(m_end) = Some end_ ->
m.(m_path) = Some p ->
w.(fs) p = Some content ->
reconcile collection identifier c =
mkOut c [EvIsFile identifier; EvGetIds identifier; EvOpen p]
      (inr [chunk_result w c identifier p content start end_]).
Proof.
intros Hmeta Hdocs Hstart Hend Hpath Hfile.
rewrite reconcile_chunk_branch.
unfold chunk_record, get_ids.
rewrite bind_bind, bind_emit, bind_ret, Hmeta, Hdocs, Hstart, Hend.
unfold expand_chunk, open_. rewrite Hpath. cbn [str_of_path].
rewrite bind_bind, bind_emit, Hfile, bind_ret.
unfold chunk_result.
destruct (QueryInclude.mem QueryInclude.path (Config.include c));
  reflexivity.
Qed.

(** Metadata missing or empty: the error is logged, no record. *)
Lemma reconcile_chunk_no_metadata :
(collection.(coll_get_ids) identifier).(g_metadatas) = None \/
(collection.(coll_get_ids) identifier).(g_metadatas) = Some [] ->
reconcile collection identifier c =
mkOut c [EvIsFile identifier; EvGetIds identifier;
         EvLog ERROR NoChunkMetadata]
      (inr []).
Proof.
intros Hmeta. rewrite reconcile_chunk_branch.
unfold chunk_record, get_ids.
rewrite bind_bind, bind_emit, bind_ret.
destruct Hmeta as [-> | ->]; reflexivity.
Qed.

(** Metadata that is there: whatever happens, that error is not logged. *)
Lemma reconcile_chunk_metadata_not_logged m ms :
(collection.(coll_get_ids) identifier).(g_metadatas) = Some (m :: ms) ->
~ In (EvLog ERROR NoChunkMetadata)
     (trace (reconcile collection identifier c)).
Proof.
intros Hmeta. rewrite reconcile_chunk_branch.
unfold chunk_record, get_ids.
rewrite bind_bind, bind_emit, bind_ret, Hmeta.
unfold expand_chunk, open_, bind, emit, ret, raise.
repeat case_match; cbn; intuition discriminate.
Qed.

(** Metadata without [start] or without [end]: no record and no log. *)
Lemma reconcile_chunk_without_range m ms text texts :
(collection.(coll_get_ids) identifier).(g_metadatas) = Some (m :: ms) ->
(collection.(coll_get_ids) identifier).(g_documents) = Some (text :: texts) ->
m.(m_start) = None \/ m.(m_end) = None ->
reconcile collection identifier c =
mkOut c [EvIsFile identifier; EvGetIds identifier] (inr []).
Proof.
intros Hmeta Hdocs Hrange. rewrite reconcile_chunk_branch.
unfold chunk_record, get_ids.
rewrite bind_bind, bind_emit, bind_ret, Hmeta, Hdocs.
destruct Hrange as [-> | ->]; [|destruct (m_start m)]; reflexivity.
Qed.
End ChunkBranch.

(** ** C2: what the chunk branch emits and what it logs *)

(** C2 (amended).  For an identifier that is not an existing file, in chunk
    mode: when the fetched metadata is non-empty and carries [start], [end]
    and the path of a file that can be read, and a document text is stored,
    exactly one record is emitted; it holds [chunk], [chunk_id],
    [start_line] and [end_line], and [path] exactly when [path] was
    requested, and nothing is logged.  The error is logged, with no record,
    exactly when the metadata is missing or empty; metadata that is there
    but lacks [start] or [end] gives no record and no log record. *)
Theorem chunk_branch_emits_or_logs (w : World) (collection : Collection w)
        (c : Config.t) (identifier : string) :
  w.(fs) identifier = None ->
  QueryInclude.mem QueryInclude.chunk c.(Config.include) = true ->
  (forall m ms text texts start end_ p content,
      (collection.(coll_get_ids) identifier).(g_metadatas) = Some (m :: ms) ->
      (collection.(coll_get_ids) identifier).(g_documents)
      = Some (text :: texts) ->
      m.(m_start) = Some start -> m.(m_end) = Some end_ ->
      m.(m_path) = Some p -> w.(fs) p = Some content ->
      exists r,
        reconcile collection identifier c =
        mkOut c [EvIsFile identifier; EvGetIds identifier; EvOpen p]
              (inr [r]) /\
        keys r = ["chunk"; "chunk_id"; "start_line"; "end_line"]
                 ++ (if QueryInclude.mem QueryInclude.path c.(Config.include)
                     then ["path"] else []) /\
        dict_get "chunk_id" r = Some (VStr identifier) /\
        dict_get "start_line" r = Some (VInt start) /\
        dict_get "end_line" r = Some (VInt end_) /\
        (QueryInclude.mem QueryInclude.path c.(Config.include) = true ->
         dict_get "path" r =
         Some (VStr (if c.(Config.use_absolute_path) then p
                     else w.(relpath) p c.(Config.project_root))))) /\
  ((res (reconcile collection identifier c) = inr [] /\
    In (EvLog ERROR NoChunkMetadata)
       (trace (reconcile collection identifier c))) <->
   ((collection.(coll_get_ids) identifier).(g_metadatas) = None \/
    (collection.(coll_get_ids) identifier).(g_metadatas) = Some [])) /\
  (forall m ms text texts,
      (collection.(coll_get_ids) identifier).(g_metadatas) = Some (m :: ms) ->
      (collection.(coll_get_ids) identifier).(g_documents)
      = Some (text :: texts) ->
      m.(m_start) = None \/ m.(m_end) = None ->
      reconcile collection identifier c =
      mkOut c [EvIsFile identifier; EvGetIds identifier] (inr [])).
Proof.
  intros Hnofile Hchunk. split; [|split].
  - intros m ms text texts start end_ p content
           Hmeta Hdocs Hstart Hend Hpath Hfile.
    exists (chunk_result w c identifier p content start end_).
    split; [eapply reconcile_chunk_with_range; eassumption|].
    unfold chunk_result.
    destruct (QueryInclude.mem QueryInclude.path (Config.include c));
      repeat split; try reflexivity; discriminate.
  - split.
    + intros [_ Hlog].
      destruct (g_metadatas (coll_get_ids collection identifier))
        as [[|m ms]|] eqn:Hmeta; [right | | left]; try reflexivity.
      exfalso. revert Hlog.
      eapply reconcile_chunk_metadata_not_logged; eassumption.
    + intros Hmeta.
      rewrite reconcile_chunk_no_metadata by assumption.
      split; [reflexivity | cbn; auto].
  - intros m ms text texts Hmeta Hdocs Hrange.
    eapply reconcile_chunk_without_range; eassumption.
Qed.

Lemma chunk_branch_emits_or_logs_witness :
  exists r,
    @reconcile (demo_world 3 ["c1"] ["c1"]) (demo_collection 3 ["c1"] ["c1"])
               "c1" (demo_configs [QueryInclude.chunk; QueryInclude.path] []) =
    mkOut (demo_configs [QueryInclude.chunk; QueryInclude.path] [])
          [EvIsFile "c1"; EvGetIds "c1"; EvOpen "/repo/lib.py"] (inr [r]) /\
    keys r = ["chunk"; "chunk_id"; "start_line"; "end_line"; "path"].
Proof.
  destruct (proj1 (@chunk_branch_emits_or_logs
                     (demo_world 3 ["c1"] ["c1"])
                     (demo_collection 3 ["c1"] ["c1"])
                     (demo_configs [QueryInclude.chunk; QueryInclude.path] [])
                     "c1" eq_refl eq_refl)
                  (mkMeta (Some "/repo/lib.py") (Some 1) (Some 2)) []
                  "indexed text" [] 1 2 "/repo/lib.py"
                  (String.concat (String newline EmptyString)
                                 ["l0"; "l1"; "l2"; "l3"; ""])
                  eq_refl eq_refl eq_refl eq_refl eq_refl eq_refl)
    as [r [Hrun [Hkeys _]]].
  exists r. split; [exact Hrun | exact Hkeys].
Defined.

(** The claim as it is worded fails when the file of the chunk is gone:
    the metadata of [c4] is non-empty and carries [start] and [end], yet
    no record is emitted, the call raises. *)
Lemma chunk_branch_counterexample :
  demo_chunks "c4" =
  mkGet ["c4"] (Some [mkMeta (Some "/repo/gone.py") (Some 0) (Some 0)])
        (Some ["indexed text"]) /\
  fs (demo_world 3 ["c4"] ["c4"]) "c4" = None /\
  ~ exists r,
      res (@reconcile (demo_world 3 ["c4"] ["c4"])
                      (demo_collection 3 ["c4"] ["c4"])
                      "c4" (demo_configs [QueryInclude.chunk] [])) = inr [r].
Proof.
  repeat split. intros [r H]. discriminate H.
Qed.

(** ** C8: the text of a chunk *)

Lemma firstn_skipn_step A (l : list A) (s n : nat) :
  firstn (S n) (skipn s l) =
  match nth_error l s with Some x => [x] | None => [] end
  ++ firstn n (skipn (S s) l).
Proof.
  revert s. induction l as [|x l IH]; intros s.
  - destruct s, n; reflexivity.
  - destruct s as [|s]; [reflexivity|]. cbn [skipn nth_error]. apply IH.
Qed.

(** The lines with index [s], ..., [s + n - 1], as far as they exist. *)
Lemma indexed_lines A (l : list A) (s n : nat) :
  flat_map (fun i => match nth_error l i with
                     | Some x => [x]
                     | None => []
                     end) (seq s n) =
  firstn n (skipn s l).
Proof.
  revert s. induction n as [|n IH]; intros s; [reflexivity|].
  cbn [seq flat_map]. rewrite IH, firstn_skipn_step. reflexivity.
Qed.

(** For offsets that are not negative, Python's slice [l[start:end+1]] is
    the lines from [start] through [end], both included. *)
Lemma py_slice_lines_between (lines : list string) (start end_ : Z) :
  0 <= start -> 0 <= end_ ->
  py_slice lines start (end_ + 1) =
  lines_between lines (Z.to_nat start) (Z.to_nat end_).
Proof.
  intros Hstart Hend. unfold py_slice, lines_between, slice_index.
  rewrite indexed_lines.
  destruct (Z.ltb_spec start 0) as [?|_]; [lia|].
  destruct (Z.ltb_spec (end_ + 1) 0) as [?|_]; [lia|].
  set (len := List.length lines).
  destruct (Z_lt_le_dec start (Z.of_nat len)) as [Hin|Hout].
  - rewrite (Z.min_l start) by lia.
    destruct (Z_le_gt_dec (end_ + 1) (Z.of_nat len)) as [Hfit|Hlong].
    + rewrite (Z.min_l (end_ + 1)) by lia. f_equal. lia.
    + rewrite (Z.min_r (end_ + 1)) by lia.
      rewrite !firstn_all2; [reflexivity | |];
        rewrite length_skipn; fold len; lia.
  - rewrite (Z.min_r start) by lia.
    rewrite !(skipn_all2 lines); [|fold len; lia | fold len; lia].
    rewrite !firstn_nil. reflexivity.
Qed.

(** C8.  For a chunk record reconciled in chunk mode whose metadata carries
    the line offsets [start] and [end] (offsets are not negative) and the
    path of a readable file, the [chunk] field of the record is the
    concatenation of the lines of that file, as it is on disk now, from
    index [start] through index [end] inclusive; the text stored in the
    index does not enter it. *)
Theorem chunk_is_read_from_source (w : World) (collection : Collection w)
        (c : Config.t) (identifier : string)
        (m : Metadata) (ms : list Metadata) (text : string)
        (texts : list string) (start end_ : Z) (p content : string) :
  w.(fs) identifier = None ->
  QueryInclude.mem QueryInclude.chunk c.(Config.include) = true ->
  (collection.(coll_get_ids) identifier).(g_metadatas) = Some (m :: ms) ->
  (collection.(coll_get_ids) identifier).(g_documents) = Some (text :: texts) ->
  m.(m_start) = Some start -> m.(m_end) = Some end_ ->
  0 <= start -> 0 <= end_ ->
  m.(m_path) = Some p -> w.(fs) p = Some content ->
  exists r,
    res (reconcile collection identifier c) = inr [r] /\
    dict_get "chunk" r =
    Some (VStr (join (lines_between (readlines content)
                                    (Z.to_nat start) (Z.to_nat end_)))).
Proof.
  intros Hnofile Hchunk Hmeta Hdocs Hstart Hend Hs He Hpath Hfile.
  exists (chunk_result w c identifier p content start end_). split.
  - erewrite reconcile_chunk_with_range by eassumption. reflexivity.
  - unfold chunk_result. cbn [app dict_get String.eqb].
    rewrite py_slice_lines_between by assumption. reflexivity.
Qed.

(** The lines 1 to 2 of a file of four lines; the index holds another text. *)
Lemma chunk_is_read_from_source_witness :
  exists r,
    res (@reconcile (demo_world 3 ["c1"] ["c1"])
                    (demo_collection 3 ["c1"] ["c1"])
                    "c1" (demo_configs [QueryInclude.chunk] [])) = inr [r] /\
    dict_get "chunk" r =
    Some (VStr (String.concat (String newline EmptyString) ["l1"; "l2"; ""])).
Proof.
  exact (@chunk_is_read_from_source
           (demo_world 3 ["c1"] ["c1"]) (demo_collection 3 ["c1"] ["c1"])
           (demo_configs [QueryInclude.chunk] []) "c1"
           (mkMeta (Some "/repo/lib.py") (Some 1) (Some 2)) []
           "indexed text" [] 1 2 "/repo/lib.py"
           (String.concat (String newline EmptyString)
                          ["l0"; "l1"; "l2"; "l3"; ""])
           eq_refl eq_refl eq_refl eq_refl eq_refl eq_refl
           ltac:(lia) ltac:(lia) eq_refl eq_refl).
Defined.

Lemma join_readlines (s : string) : join (readlines s) = s.
Proof.
  unfold join. induction s as [|ch rest IH]; [reflexivity|].
  cbn [readlines]. destruct (Ascii.eqb ch newline).
  - cbn. rewrite IH. reflexivity.
  - destruct (readlines rest) as [|l ls]; cbn in *; rewrite <- IH; reflexivity.
Qed.

(** The example of the specification: lines 10 to 12 are [a], [b], [c]. *)
Example lines_10_to_12 :
  join (py_slice (repeat "x" 10 ++ ["a"; "b"; "c"; "y"]) 10 (12 + 1)) = "abc"
  /\ join (lines_between (repeat "x" 10 ++ ["a"; "b"; "c"; "y"]) 10 12) = "abc".
Proof. split; reflexivity. Qed.

(** ** C3 and C9: the keys and the paths of the records *)

Lemma Forall2_In_r A B (R : A -> B -> Prop) l l' b :
  Forall2 R l l' -> In b l' -> exists a, In a l /\ R a b.
Proof.
  induction 1 as [|a b' l l' Hab _ IH]; cbn; [contradiction|].
  intros [<-|Hin].
  - exists a. auto.
  - destruct (IH Hin) as [a' [Ha' HR]]. exists a'. auto.
Qed.

Lemma restrict_keys full include acc r :
  restrict full include acc = inr r ->
  incl (keys r) (keys acc ++ map QueryInclude.value include).
Proof.
  revert acc. induction include as [|key rest IH]; intros acc; cbn.
  - intros H. inversion H. rewrite app_nil_r. apply incl_refl.
  - destruct (dict_get (QueryInclude.value key) full) as [v|]; [|discriminate].
    intros H. apply IH in H. intros k Hk. apply H in Hk.
    apply in_app_iff in Hk. destruct Hk as [Hk|Hk].
    + apply keys_dict_set_incl, in_app_iff in Hk. apply in_app_iff.
      destruct Hk as [Hk|[<-|[]]]; [left; exact Hk | right; left; reflexivity].
    + apply in_app_iff. right. right. exact Hk.
Qed.

Lemma reconcile_keys (w : World) (collection : Collection w) identifier c bs :
  res (reconcile collection identifier c) = inr bs ->
  forall raw, In raw bs -> record_keys c raw.
Proof.
  unfold reconcile, isfile.
  rewrite bind_get_configs, bind_bind, bind_emit, bind_ret. cbn [res].
  destruct (fs w identifier) as [document|] eqn:Hfile.
  - unfold file_record, open_. rewrite bind_bind, bind_emit, Hfile, bind_ret.
    cbn [res]. rewrite res_bind. cbn [lift res].
    destruct (restrict _ _ _) as [e|r] eqn:Hr; [discriminate|].
    cbn. intros H raw Hin. inversion H. subst bs.
    destruct Hin as [<-|[]]. left. apply restrict_keys in Hr. exact Hr.
  - destruct (QueryInclude.mem QueryInclude.chunk (Config.include c))
      eqn:Hchunk.
    + unfold chunk_record, get_ids.
      rewrite bind_bind, bind_emit, bind_ret. cbn [res].
      destruct (g_metadatas _) as [[|m ms]|];
        try (cbn; intros H raw Hin; inversion H; subst bs; destruct Hin).
      destruct (g_documents _) as [[|text texts]|]; try discriminate.
      destruct (m_start m) as [start|], (m_end m) as [end_|];
        try (cbn; intros H raw Hin; inversion H; subst bs; destruct Hin).
      unfold expand_chunk, open_. rewrite bind_bind, bind_emit. cbn [res].
      destruct (fs w (str_of_path (m_path m))) as [content|];
        [rewrite bind_ret | discriminate].
      destruct (QueryInclude.mem QueryInclude.path (Config.include c))
        eqn:Hpath.
      * destruct (m_path m) as [p|]; [|discriminate].
        cbn. intros H raw Hin. inversion H. subst bs.
        destruct Hin as [<-|[]]. right.
        rewrite Hpath. split; [assumption | reflexivity].
      * cbn. intros H raw Hin. inversion H. subst bs.
        destruct Hin as [<-|[]]. right.
        rewrite Hpath. split; [assumption | reflexivity].
    + cbn. intros H raw Hin. inversion H. subst bs. destruct Hin.
Qed.

(** The second loop: what [normalise] returns. *)
Lemma normalise_inr (w : World) raw r c :
  res (normalise w raw c) = inr r -> normalised w raw r.
Proof.
  unfold normalise, normalised.
  destruct (dict_get "path" raw) as [[p|z]|]; cbn; intros H; inversion H.
  - right. exists p. split; reflexivity.
  - left. split; reflexivity.
Qed.

Lemma normalised_keys (w : World) raw r :
  normalised w raw r -> keys r = keys raw.
Proof.
  intros [[_ ->]|[p [Hp ->]]]; [reflexivity|].
  eapply keys_dict_set_present. exact Hp.
Qed.

(** C3 (amended).  Every record [build_query_results] returns has the keys
    of its branch: a record of the existing-file branch has only keys of the
    requested include list; a record of the chunk branch has [chunk],
    [chunk_id], [start_line] and [end_line], and [path] exactly when [path]
    was requested.  So the keys of every record are among the requested ones
    extended with [chunk_id], [start_line] and [end_line]. *)
Theorem result_keys_by_branch (w : World) (collection : Collection w)
        (c : Config.t) (rs : list StructuredResult) :
  res (build_query_results collection c) = inr rs ->
  forall r, In r rs ->
    (incl (keys r) (map QueryInclude.value c.(Config.include)) \/
     (QueryInclude.mem QueryInclude.chunk c.(Config.include) = true /\
      keys r = ["chunk"; "chunk_id"; "start_line"; "end_line"]
               ++ if QueryInclude.mem QueryInclude.path c.(Config.include)
                  then ["path"] else [])) /\
    incl (keys r) (map QueryInclude.value c.(Config.include) ++ chunk_keys).
Proof.
  intros Hres r Hr.
  destruct (build_query_results_inr _ _ Hres)
    as [identifiers [rss [_ [Hrec [_ Hnorm]]]]].
  destruct (@Forall2_In_r _ _ _ _ _ _ Hnorm Hr) as [raw [Hraw Hn]].
  apply normalise_inr, normalised_keys in Hn. rewrite Hn.
  apply in_concat in Hraw. destruct Hraw as [bs [Hbs Hraw]].
  destruct (@Forall2_In_r _ _ _ _ _ _ Hrec Hbs) as [identifier [_ Hid]].
  pose proof (reconcile_keys _ _ _ Hid raw Hraw) as Hkeys.
  unfold record_keys in Hkeys.
  cbn [Config.include Config.set_query_exclude] in Hkeys.
  split; [exact Hkeys|].
  destruct Hkeys as [Hkeys|[Hchunk ->]].
  - apply incl_appl, Hkeys.
  - apply QueryInclude_mem_In in Hchunk.
    apply (in_map QueryInclude.value) in Hchunk.
    apply incl_cons; [apply in_app_iff; left; exact Hchunk|].
    destruct (QueryInclude.mem QueryInclude.path (Config.include c)) eqn:Hpath.
    + apply QueryInclude_mem_In in Hpath.
      apply (in_map QueryInclude.value) in Hpath.
      intros k [<-|[<-|[<-|[<-|[]]]]]; apply in_app_iff;
        [right | right | right | left]; cbn; auto.
    + intros k [<-|[<-|[<-|[]]]]; apply in_app_iff; right; cbn; auto.
Qed.

Lemma result_keys_by_branch_witness :
  incl (keys [("path", VStr "x.py"); ("document", VStr "hello")])
       (["path"; "document"] ++ chunk_keys).
Proof.
  exact (proj2 (@result_keys_by_branch
                  (demo_world 3 [] ["/repo/x.py"])
                  (demo_collection 3 [] ["/repo/x.py"])
                  (demo_configs [QueryInclude.path; QueryInclude.document] [])
                  [[("path", VStr "x.py"); ("document", VStr "hello")]]
                  eq_refl
                  [("path", VStr "x.py"); ("document", VStr "hello")]
                  (or_introl eq_refl))).
Defined.

(** The claim as it is worded fails on a chunk record: only [chunk] is
    requested, and the record has [chunk_id], [start_line] and [end_line]. *)
Lemma result_keys_counterexample :
  exists r,
    res (@build_query_results (demo_world 3 ["c1"] ["c1"])
                              (demo_collection 3 ["c1"] ["c1"])
                              (demo_configs [QueryInclude.chunk] []))
    = inr [r] /\
    ~ incl (keys r) (map QueryInclude.value [QueryInclude.chunk]).
Proof.
  eexists. split; [reflexivity|].
  intros H. specialize (H "chunk_id"). cbn in H.
  destruct H as [H|[]]; [auto | discriminate H].
Qed.

(** C9.  When [build_query_results] returns, its records are the records of
    the first loop, in order, each with its [path] replaced by
    [cleanup_path] of it when it has one; so whichever branch made a record,
    the path it carries in the output went through [cleanup_path]. *)
Theorem paths_are_cleaned (w : World) (collection : Collection w)
        (c : Config.t) (rs : list StructuredResult) :
  res (build_query_results collection c) = inr rs ->
  exists raws,
    res (reconciled collection c) = inr raws /\
    Forall2 (normalised w) raws rs /\
    (forall r v,
        In r rs -> dict_get "path" r = Some v ->
        exists raw p,
          In raw raws /\ dict_get "path" raw = Some (VStr p) /\
          v = VStr (w.(cleanup_path) p)).
Proof.
  intros Hres.
  destruct (build_query_results_inr _ _ Hres)
    as [identifiers [rss [_ [_ [Hraws Hnorm]]]]].
  assert (Hall : Forall2 (normalised w) (List.concat rss) rs)
    by (eapply Forall2_impl; [|exact Hnorm];
        intros raw r; apply normalise_inr).
  exists (List.concat rss). repeat split; try assumption.
  intros r v Hr Hv.
  destruct (@Forall2_In_r _ _ _ _ _ _ Hall Hr) as [raw [Hraw [[Hnone ->]|[p [Hp ->]]]]].
  - congruence.
  - exists raw, p. rewrite dict_get_set_same in Hv. inversion Hv. auto.
Qed.

Lemma paths_are_cleaned_witness :
  exists raws,
    res (@reconciled (demo_world 3 ["c1"] ["c1"])
                     (demo_collection 3 ["c1"] ["c1"])
                     (demo_configs [QueryInclude.chunk; QueryInclude.path] []))
    = inr raws /\
    Forall2 (normalised (demo_world 3 ["c1"] ["c1"])) raws
            [[("chunk", VStr (String.concat (String newline EmptyString)
                                            ["l1"; "l2"; ""]));
              ("chunk_id", VStr "c1"); ("start_line", VInt 1);
              ("end_line", VInt 2); ("path", VStr "lib.py")]].
Proof.
  destruct (@paths_are_cleaned
              (demo_world 3 ["c1"] ["c1"]) (demo_collection 3 ["c1"] ["c1"])
              (demo_configs [QueryInclude.chunk; QueryInclude.path] [])
              [[("chunk", VStr (String.concat (String newline EmptyString)
                                              ["l1"; "l2"; ""]));
                ("chunk_id", VStr "c1"); ("start_line", VInt 1);
                ("end_line", VInt 2); ("path", VStr "lib.py")]]
              eq_refl)
    as [raws [Hraws [Hall _]]].
  exists raws. split; [exact Hraws | exact Hall].
Defined.

(** * Further properties of the module *)

(** ** Resolving the collection *)

(** Every run of [resolve_collection], lines 165-183. *)
Lemma resolve_collection_run (w : World) configs c :
  resolve_collection w configs c =
  match w.(get_collection) configs with
  | inl e =>
      if handled e then
        mkOut c [EvGetCollection; EvLog ERROR (resolution_message e)]
              (inr (inl 1))
      else mkOut c [EvGetCollection] (inl e)
  | inr collection =>
      match w.(verify_ef) collection configs with
      | inl e =>
          if handled e then
            mkOut c [EvGetCollection; EvLog ERROR (resolution_message e)]
                  (inr (inl 1))
          else mkOut c [EvGetCollection] (inl e)
      | inr true => mkOut c [EvGetCollection] (inr (inr collection))
      | inr false => mkOut c [EvGetCollection] (inr (inl 1))
      end
  end.
Proof.
  unfold resolve_collection, try_except.
  rewrite bind_emit. cbn [res cfg trace].
  destruct (get_collection w configs) as [e|collection].
  - rewrite bind_lift_inl. destruct e; reflexivity.
  - rewrite bind_lift_inr.
    destruct (verify_ef w collection configs) as [e|[|]].
    + rewrite bind_lift_inl. destruct e; reflexivity.
    + rewrite bind_lift_inr. reflexivity.
    + rewrite bind_lift_inr. reflexivity.
Qed.

(** The driver in a valid mode, by the outcome of the resolution. *)
Lemma query_run (w : World) c :
  QueryInclude.mem QueryInclude.chunk c.(Config.include)
  && QueryInclude.mem QueryInclude.document c.(Config.include) = false ->
  query w c =
  match res (resolve_collection w c c) with
  | inl e => mkOut c (EvConnect :: trace (resolve_collection w c c)) (inl e)
  | inr (inl status) =>
      mkOut c (EvConnect :: trace (resolve_collection w c c)) (inr status)
  | inr (inr collection) =>
      mkOut (cfg (respond collection (cfg (fallback collection c))))
            (EvConnect :: EvGetCollection
             :: (if c.(Config.pipe) then [] else [EvPrint PStart])
             ++ trace (fallback collection c)
             ++ trace (respond collection (cfg (fallback collection c))))
            (res (respond collection (cfg (fallback collection c))))
  end.
Proof.
  intros Hmode.
  assert (Hcfg : cfg (resolve_collection w c c) = c)
    by apply cfg_unchanged, resolve_collection_unchanged.
  destruct (res (resolve_collection w c c)) as [e|[status|collection]] eqn:Hres.
  - unfold query. rewrite bind_get_configs, Hmode, bind_emit.
    erewrite bind_inl by exact Hres. cbn [cfg trace res].
    rewrite Hcfg. reflexivity.
  - unfold query. rewrite bind_get_configs, Hmode, bind_emit.
    erewrite bind_inr by exact Hres. cbn [cfg trace res].
    rewrite Hcfg. cbn. rewrite app_nil_r. reflexivity.
  - pose proof (@resolve_collection_inr _ _ _ _ Hres) as Hget.
    rewrite resolve_collection_run, Hget in Hres.
    destruct (verify_ef w collection c) as [e|[|]] eqn:Hverify.
    + destruct (handled e); discriminate.
    + apply query_resolved; assumption.
    + discriminate.
Qed.

(** X (resolution errors).  In a valid mode, when [get_collection] or
    [verify_ef] raises: for [ValueError], [InvalidCollectionException],
    [InvalidDimensionException] and [IndexError] the run is connect, resolve,
    one error log record, exit status 1; any other exception leaves [query]
    as it was raised.  Either way the configuration is untouched and the
    index is never asked anything. *)
Theorem resolution_error_exits (w : World) (c : Config.t) (e : Exc) :
  QueryInclude.mem QueryInclude.chunk c.(Config.include)
  && QueryInclude.mem QueryInclude.document c.(Config.include) = false ->
  (w.(get_collection) c = inl e \/
   exists collection, w.(get_collection) c = inr collection /\
                      w.(verify_ef) collection c = inl e) ->
  query w c =
  if handled e then
    mkOut c [EvConnect; EvGetCollection; EvLog ERROR (resolution_message e)]
          (inr 1)
  else mkOut c [EvConnect; EvGetCollection] (inl e).
Proof.
  intros Hmode Hfail. rewrite query_run by exact Hmode.
  rewrite resolve_collection_run.
  destruct Hfail as [-> | [collection [-> ->]]];
    destruct (handled e); reflexivity.
Qed.

Lemma resolution_error_exits_witness :
  query (custom_world (inl InvalidDimensionException) (inr true) (inr [])
                      (fun r => inr r))
        (demo_configs [QueryInclude.path] []) =
  mkOut (demo_configs [QueryInclude.path] [])
        [EvConnect; EvGetCollection; EvLog ERROR DifferentEmbeddingModel]
        (inr 1).
Proof.
  exact (@resolution_error_exits
           (custom_world (inl InvalidDimensionException) (inr true) (inr [])
                         (fun r => inr r))
           (demo_configs [QueryInclude.path] []) InvalidDimensionException
           eq_refl (or_introl eq_refl)).
Defined.

(** X (unverified collection).  When [verify_ef] answers [False], [query]
    returns 1 at once: this module logs nothing, prints nothing and asks the
    index nothing. *)
Theorem unverified_collection_exits (w : World) (c : Config.t)
        (collection : Collection w) :
  QueryInclude.mem QueryInclude.chunk c.(Config.include)
  && QueryInclude.mem QueryInclude.document c.(Config.include) = false ->
  w.(get_collection) c = inr collection ->
  w.(verify_ef) collection c = inr false ->
  query w c = mkOut c [EvConnect; EvGetCollection] (inr 1).
Proof.
  intros Hmode Hget Hverify.
  rewrite query_run by exact Hmode.
  rewrite resolve_collection_run, Hget, Hverify. reflexivity.
Qed.

Lemma unverified_collection_exits_witness :
  query (custom_world (inr (demo_collection 3 [] ["/repo/x.py"])) (inr false)
                      (inr []) (fun r => inr r))
        (demo_configs [QueryInclude.path] []) =
  mkOut (demo_configs [QueryInclude.path] []) [EvConnect; EvGetCollection]
        (inr 1).
Proof.
  exact (@unverified_collection_exits
           (custom_world (inr (demo_collection 3 [] ["/repo/x.py"]))
                         (inr false) (inr []) (fun r => inr r))
           (demo_configs [QueryInclude.path] [])
           (demo_collection 3 [] ["/repo/x.py"])
           eq_refl eq_refl eq_refl).
Defined.

(** ** The output *)

Lemma map_m_emit A (g : A -> Event) (l : list A) c :
  map_m (fun a => emit (g a)) l c =
  mkOut c (map g l) (inr (map (fun _ => tt) l)).
Proof.
  induction l as [|a l IH]; [reflexivity|].
  cbn [map_m map]. rewrite bind_emit.
  erewrite bind_run by exact IH. cbn. rewrite app_nil_r. reflexivity.
Qed.

(** The human readable output never fails and prints [human_output]. *)
Lemma print_results_run include results c :
  print_results include results c =
  mkOut c (human_output include results) (inr tt).
Proof.
  unfold human_output.
  induction results as [|result rest IH]; [reflexivity|].
  cbn [print_results map intersperse].
  erewrite bind_run by apply map_m_emit. cbn [cfg trace res].
  fold (result_block include result).
  destruct rest as [|next rest].
  - cbn. rewrite app_nil_r. reflexivity.
  - rewrite bind_emit, IH. reflexivity.
Qed.

(** Every run of [respond], lines 197-212. *)
Lemma respond_run (w : World) (collection : Collection w) c :
  let c' := Config.set_query_exclude
              (excluded_paths w c.(Config.query_exclude)) c in
  respond collection c =
  match res (build_query_results collection c) with
  | inl e =>
      if is_RerankerError e then
        mkOut c' (trace (build_query_results collection c)
                  ++ [EvLog ERROR RerankerFailed]) (inr 1)
      else mkOut c' (trace (build_query_results collection c)) (inl e)
  | inr results =>
      mkOut c' (trace (build_query_results collection c)
                ++ if c.(Config.pipe) then [EvPrint (PJson results)]
                   else human_output c.(Config.include) results)
            (inr 0)
  end.
Proof.
  intros c'.
  set (body := bind (build_query_results collection)
                    (fun structured_result => ret (Some structured_result))).
  assert (Hcfg : cfg (build_query_results collection c) = c')
    by apply build_query_results_cfg.
  unfold respond. fold body.
  destruct (res (build_query_results collection c)) as [e|results] eqn:Hres.
  - assert (Hbody : body c =
                    mkOut c' (trace (build_query_results collection c))
                          (inl e))
      by (unfold body; erewrite bind_inl by exact Hres; rewrite Hcfg;
          reflexivity).
    unfold bind at 1. unfold try_except. rewrite Hbody. cbn [res cfg trace].
    destruct (is_RerankerError e); [|reflexivity].
    unfold log. rewrite bind_emit. cbn. rewrite app_nil_r. reflexivity.
  - assert (Hbody : body c =
                    mkOut c' (trace (build_query_results collection c) ++ [])
                          (inr (Some results)))
      by (unfold body; erewrite bind_inr by exact Hres; rewrite Hcfg;
          reflexivity).
    erewrite bind_run by (unfold try_except; rewrite Hbody; reflexivity).
    cbv iota. rewrite bind_get_configs.
    change (Config.pipe c') with (Config.pipe c).
    change (Config.include c') with (Config.include c).
    rewrite app_nil_r.
    destruct (Config.pipe c).
    + rewrite bind_emit. reflexivity.
    + erewrite bind_run by apply print_results_run. cbn.
      rewrite app_nil_r. reflexivity.
Qed.

Lemma length_filter_app A (p : A -> bool) (l l' : list A) :
  List.length (filter p (l ++ l')) =
  (List.length (filter p l) + List.length (filter p l'))%nat.
Proof. rewrite filter_app. apply length_app. Qed.

Lemma result_block_fields include result :
  List.length (filter is_field (result_block include result))
  = List.length include /\
  filter is_blank (result_block include result) = [].
Proof.
  unfold result_block. induction include as [|item include [IHf IHb]];
    [split; reflexivity|].
  cbn. rewrite IHf, IHb. split; reflexivity.
Qed.

Lemma intersperse_counts (blocks : list (list Event)) (k : nat) :
  Forall (fun b => List.length (filter is_field b) = k /\
                   filter is_blank b = []) blocks ->
  List.length (filter is_field (intersperse [EvPrint PBlank] blocks)) =
  (List.length blocks * k)%nat /\
  List.length (filter is_blank (intersperse [EvPrint PBlank] blocks)) =
  pred (List.length blocks).
Proof.
  induction 1 as [|b rest [Hf Hb] _ [IHf IHb]]; [split; reflexivity|].
  destruct rest as [|b' rest].
  - cbn. rewrite Hf, Hb. split; [lia | reflexivity].
  - change (intersperse [EvPrint PBlank] (b :: b' :: rest))
      with (b ++ [EvPrint PBlank] ++ intersperse [EvPrint PBlank] (b' :: rest)).
    rewrite !length_filter_app, IHf, IHb, Hf, Hb. cbn. split; lia.
Qed.

(** X (human readable output).  Outside pipe mode the results are printed
    as one block per result, the requested fields in the requested order,
    with one blank line between two results and none after the last: for
    [n] results and [k] requested fields there are [n * k] field lines and
    [n - 1] blank lines, and printing never fails. *)
Theorem human_output_layout (include : list QueryInclude.t)
        (results : list StructuredResult) (c : Config.t) :
  print_results include results c =
  mkOut c (intersperse [EvPrint PBlank] (map (result_block include) results))
        (inr tt) /\
  List.length (filter is_field (trace (print_results include results c))) =
  (List.length results * List.length include)%nat /\
  List.length (filter is_blank (trace (print_results include results c))) =
  pred (List.length results).
Proof.
  rewrite print_results_run. cbn [trace]. unfold human_output.
  split; [reflexivity|].
  rewrite <- (length_map (result_block include) results).
  apply intersperse_counts, Forall_forall.
  intros b Hb. apply in_map_iff in Hb. destruct Hb as [result [<- _]].
  apply result_block_fields.
Qed.


(** ** Errors of the pipeline *)

(** Only the driver prints. *)
Lemma build_query_results_prints_nothing (w : World)
      (collection : Collection w) :
  silent is_print (build_query_results collection).
Proof.
  unfold silent, build_query_results, get_query_result_files,
    existing_excludes, retrieve, exclusion_filter, plan, count, embed,
    collection_query, rerank, reconcile, file_record, chunk_record,
    expand_chunk, normalise, isfile, open_, get_ids, log.
  run_emits.
Qed.

(** X (errors of the pipeline).  In a run that reached a collection, when
    [build_query_results] raises: a [RerankerError] is logged and [query]
    returns 1; every other exception (a missing key, a file that cannot be
    opened, an error of the index) leaves [query] as it was raised.  In both
    cases no result is printed. *)
Theorem pipeline_error_outcome (w : World) (collection : Collection w)
        (c : Config.t) (e : Exc) :
  QueryInclude.mem QueryInclude.chunk c.(Config.include)
  && QueryInclude.mem QueryInclude.document c.(Config.include) = false ->
  w.(get_collection) c = inr collection ->
  w.(verify_ef) collection c = inr true ->
  res (build_query_results collection (cfg (fallback collection c))) = inl e ->
  res (query w c) = (if is_RerankerError e then inr 1 else inl e) /\
  (is_RerankerError e = true ->
   exists before,
     trace (query w c) = before ++ [EvLog ERROR RerankerFailed]) /\
  filter is_print (trace (query w c)) =
  if c.(Config.pipe) then [] else [EvPrint PStart].
Proof.
  intros Hmode Hget Hverify Hraise.
  rewrite (query_resolved _ Hmode Hget Hverify). cbn [res trace].
  rewrite respond_run, Hraise.
  assert (Hfallback : filter is_print (trace (fallback collection c)) = [])
    by (rewrite fallback_run; repeat case_match; reflexivity).
  pose proof (silent_filter (cfg (fallback collection c))
                (build_query_results_prints_nothing collection)) as Hquiet.
  destruct (is_RerankerError e); cbn [res trace]; repeat split.
  - intros _. eexists. rewrite !app_assoc, !app_comm_cons. reflexivity.
  - cbn [filter is_print]. rewrite !filter_app, Hfallback, Hquiet. cbn.
    destruct (Config.pipe c); reflexivity.
  - discriminate.
  - cbn [filter is_print]. rewrite !filter_app, Hfallback, Hquiet.
    destruct (Config.pipe c); reflexivity.
Qed.

Lemma pipeline_error_outcome_witness :
  res (query (custom_world (inr (demo_collection 3 ["c1"] ["c1"])) (inr true)
                           (inr [tt]) (fun _ => inl RerankerError))
             (demo_configs [QueryInclude.chunk] [])) = inr 1 /\
  res (query (demo_world 3 ["c4"] ["c4"])
             (demo_configs [QueryInclude.chunk] []))
  = inl (FileNotFoundError "/repo/gone.py").
Proof.
  split.
  - exact (proj1 (@pipeline_error_outcome
                    (custom_world (inr (demo_collection 3 ["c1"] ["c1"]))
                                  (inr true) (inr [tt])
                                  (fun _ => inl RerankerError))
                    (demo_collection 3 ["c1"] ["c1"])
                    (demo_configs [QueryInclude.chunk] []) RerankerError
                    eq_refl eq_refl eq_refl eq_refl)).
  - exact (proj1 (@pipeline_error_outcome
                    (demo_world 3 ["c4"] ["c4"])
                    (demo_collection 3 ["c4"] ["c4"])
                    (demo_configs [QueryInclude.chunk] [])
                    (FileNotFoundError "/repo/gone.py")
                    eq_refl eq_refl eq_refl eq_refl)).
Defined.

Lemma filter_all A (p : A -> bool) (l : list A) :
  Forall (fun a => p a = true) l -> filter p l = l.
Proof.
  induction 1 as [|a l Ha _ IH]; [reflexivity|]. cbn. rewrite Ha, IH.
  reflexivity.
Qed.

Lemma human_output_prints include results :
  filter is_print (human_output include results) = human_output include results.
Proof.
  apply filter_all. unfold human_output.
  induction results as [|result rest IH]; [constructor|].
  assert (Hblock : Forall (fun ev => is_print ev = true)
                          (result_block include result))
    by (apply Forall_forall; intros ev Hin; apply in_map_iff in Hin;
        destruct Hin as [item [<- _]]; reflexivity).
  destruct rest as [|next rest]; [exact Hblock|].
  change (intersperse [EvPrint PBlank]
                      (map (result_block include) (result :: next :: rest)))
    with (result_block include result ++ [EvPrint PBlank]
          ++ intersperse [EvPrint PBlank]
                         (map (result_block include) (next :: rest))).
  apply Forall_app. split; [exact Hblock|].
  apply Forall_app. split; [repeat constructor | exact IH].
Qed.


(** X (the output of a run that succeeds).  When [build_query_results]
    returns, [query] returns 0 and what it printed is: in pipe mode one JSON
    array holding the results and nothing else; otherwise the start line
    and the blocks of the results, labelled by the include list as the
    fallback left it. *)
Theorem successful_run_output (w : World) (collection : Collection w)
        (c : Config.t) (results : list StructuredResult) :
  QueryInclude.mem QueryInclude.chunk c.(Config.include)
  && QueryInclude.mem QueryInclude.document c.(Config.include) = false ->
  w.(get_collection) c = inr collection ->
  w.(verify_ef) collection c = inr true ->
  res (build_query_results collection (cfg (fallback collection c)))
  = inr results ->
  res (query w c) = inr 0 /\
  filter is_print (trace (query w c)) =
  if c.(Config.pipe) then [EvPrint (PJson results)]
  else EvPrint PStart
       :: human_output (Config.include (cfg (fallback collection c))) results.
Proof.
  intros Hmode Hget Hverify Hresults.
  rewrite (query_resolved _ Hmode Hget Hverify). cbn [res trace].
  rewrite respond_run, Hresults. cbn [res trace]. split; [reflexivity|].
  assert (Hfallback : filter is_print (trace (fallback collection c)) = [])
    by (rewrite fallback_run; repeat case_match; reflexivity).
  assert (Hpipe : Config.pipe (cfg (fallback collection c)) = Config.pipe c)
    by (rewrite fallback_run; repeat case_match; reflexivity).
  pose proof (silent_filter (cfg (fallback collection c))
                (build_query_results_prints_nothing collection)) as Hquiet.
  cbn [filter is_print]. rewrite !filter_app, Hfallback, Hquiet, Hpipe.
  destruct (Config.pipe c); [reflexivity|].
  cbn [filter is_print app]. rewrite human_output_prints. reflexivity.
Qed.

Lemma successful_run_output_witness :
  filter is_print
         (trace (query (demo_world 3 [] ["/repo/x.py"; "/repo/gone.py"])
                       (demo_configs [QueryInclude.chunk; QueryInclude.path]
                                     []))) =
  [EvPrint (PJson [[("path", VStr "x.py"); ("document", VStr "hello")]])].
Proof.
  exact (proj2 (@successful_run_output
                  (demo_world 3 [] ["/repo/x.py"; "/repo/gone.py"])
                  (demo_collection 3 [] ["/repo/x.py"; "/repo/gone.py"])
                  (demo_configs [QueryInclude.chunk; QueryInclude.path] [])
                  [[("path", VStr "x.py"); ("document", VStr "hello")]]
                  eq_refl eq_refl eq_refl eq_refl)).
Defined.

(** ** More on retrieval *)

Lemma reconciling_not_rerank ev : reconciling ev -> is_rerank ev = false.
Proof. destruct ev; cbn; intros H; solve [reflexivity | destruct H]. Qed.

Lemma quiet_not_rerank ev : quiet ev -> is_rerank ev = false.
Proof. destruct ev; cbn; intros H; solve [reflexivity | destruct H]. Qed.

(** X (a search that fails).  On an index that is not empty, when the
    embedding function or the search raises [e]: an [IndexError] counts as
    "no results", [get_query_result_files] and [build_query_results] return
    the empty list; any other exception is raised by both.  The reranker is
    not called in either case. *)
Theorem failed_search_outcome (w : World) (collection : Collection w)
        (c : Config.t) (e : Exc) :
  collection.(coll_count) <> 0 ->
  (w.(embedding_function)
       (Config.set_query_exclude (excluded_paths w c.(Config.query_exclude)) c)
       (query_chunks_of w c) = inl e \/
   exists vectors,
     w.(embedding_function)
         (Config.set_query_exclude (excluded_paths w c.(Config.query_exclude))
                                   c)
         (query_chunks_of w c) = inr vectors /\
     collection.(coll_query)
       vectors
       (candidate_count
          (QueryInclude.mem QueryInclude.chunk c.(Config.include))
          c.(Config.n_result) c.(Config.query_multiplier)
          collection.(coll_count))
       (sent_filter
          (Config.set_query_exclude (excluded_paths w c.(Config.query_exclude))
                                    c)) = inl e) ->
  res (get_query_result_files collection c)
  = (if is_IndexError e then inr [] else inl e) /\
  res (build_query_results collection c)
  = (if is_IndexError e then inr [] else inl e) /\
  filter is_rerank (trace (build_query_results collection c)) = [].
Proof.
  intros Hcount Hfail.
  assert (Hzero : (coll_count collection =? 0) = false)
    by (apply Z.eqb_neq; exact Hcount).
  assert (Hres : res (get_query_result_files collection c)
                 = (if is_IndexError e then inr [] else inl e)).
  { rewrite get_query_result_files_run, Hzero.
    destruct Hfail as [-> | [vectors [-> Hq]]]; [reflexivity|].
    cbn [Config.include Config.n_result Config.query_multiplier
         Config.set_query_exclude].
    rewrite Hq. reflexivity. }
  split; [exact Hres|]. split.
  - unfold build_query_results. rewrite res_bind, Hres.
    destruct (is_IndexError e); reflexivity.
  - rewrite build_query_results_select by exact reconciling_not_rerank.
    pose proof (get_query_result_files_select collection c is_rerank
                                               quiet_not_rerank) as Hsel.
    cbv zeta in Hsel. rewrite Hsel, Hzero.
    destruct Hfail as [-> | [vectors [-> ->]]]; reflexivity.
Qed.

Lemma failed_search_outcome_witness :
  res (@build_query_results
         (custom_world (inr (custom_collection 3 [] demo_chunks
                                               (inl IndexError)))
                       (inr true) (inr [tt]) (fun r => inr r))
         (custom_collection 3 [] demo_chunks (inl IndexError))
         (demo_configs [QueryInclude.path] [])) = inr [].
Proof.
  exact (proj1 (proj2 (@failed_search_outcome
                         (custom_world
                            (inr (custom_collection 3 [] demo_chunks
                                                    (inl IndexError)))
                            (inr true) (inr [tt]) (fun r => inr r))
                         (custom_collection 3 [] demo_chunks (inl IndexError))
                         (demo_configs [QueryInclude.path] []) IndexError
                         ltac:(discriminate)
                         (or_intror (ex_intro _ [tt] (conj eq_refl eq_refl)))))).
Defined.

(** X (what is embedded).  On an index that is not empty the embedding
    function is called exactly once, on the chunks of the query strings in
    their order, each string chunked on its own with the configuration as
    it was passed in; without query strings it is still called, on the empty
    list. *)
Theorem embedding_call (w : World) (collection : Collection w)
        (c : Config.t) :
  collection.(coll_count) <> 0 ->
  filter is_embed (trace (get_query_result_files collection c)) =
  [EvEmbed match c.(Config.query) with
           | Some queries => flat_map (w.(string_chunker) c) queries
           | None => []
           end].
Proof.
  intros Hcount.
  pose proof (get_query_result_files_select collection c is_embed
                                             quiet_not_embed) as Hsel.
  cbv zeta in Hsel. rewrite Hsel.
  destruct (Z.eqb_spec (coll_count collection) 0) as [E|_]; [contradiction|].
  assert (Hchunks : query_chunks_of w c =
                    match c.(Config.query) with
                    | Some queries => flat_map (w.(string_chunker) c) queries
                    | None => []
                    end)
    by (unfold query_chunks_of; destruct (Config.query c) as [[|q qs]|];
        reflexivity).
  rewrite Hchunks. repeat case_match; reflexivity.
Qed.

Lemma embedding_call_witness :
  filter is_embed
         (trace (@get_query_result_files
                   (custom_world (inr (demo_collection 3 [] []))
                                 (inr true) (inr [tt]) (fun r => inr r))
                   (demo_collection 3 [] [])
                   (Config.mk (Some ["a"; "b"]) [] 1 1 [QueryInclude.path]
                              false "/repo" true []))) =
  [EvEmbed ["a"; "a!"; "b"; "b!"]].
Proof.
  exact (@embedding_call
           (custom_world (inr (demo_collection 3 [] []))
                         (inr true) (inr [tt]) (fun r => inr r))
           (demo_collection 3 [] [])
           (Config.mk (Some ["a"; "b"]) [] 1 1 [QueryInclude.path]
                      false "/repo" true [])
           ltac:(discriminate)).
Defined.

Lemma excluded_paths_In (w : World) (patterns : list string) (p : string) :
  In p (excluded_paths w patterns) <->
  exists i, In i (w.(expand_globs) patterns) /\ w.(fs) i <> None /\
            p = w.(expand_path) i true.
Proof.
  unfold excluded_paths. rewrite in_map_iff. split.
  - intros [i [<- Hi]]. apply filter_In in Hi. destruct Hi as [Hi Hfile].
    exists i. repeat split; [exact Hi|]. destruct (fs w i); congruence.
  - intros [i [Hi [Hfile ->]]]. exists i. split; [reflexivity|].
    apply filter_In. split; [exact Hi|]. destruct (fs w i); congruence.
Qed.

(** X (the filter outside chunk mode).  Without [chunk] in the mode, the
    one search of a run excludes exactly the expanded paths of the glob
    matches that are existing files, by [{"path": {"$nin": [...]}}]; when no
    pattern matches an existing file the search is sent without any filter.
    The presence clause on [start] is never added. *)
Theorem document_mode_filter (w : World) (collection : Collection w)
        (c : Config.t) (vectors : list w.(Vec)) :
  QueryInclude.mem QueryInclude.chunk c.(Config.include) = false ->
  collection.(coll_count) <> 0 ->
  w.(embedding_function)
      (Config.set_query_exclude (excluded_paths w c.(Config.query_exclude)) c)
      (query_chunks_of w c) = inr vectors ->
  filter is_query (trace (get_query_result_files collection c)) =
  [EvQuery (candidate_count false c.(Config.n_result)
                            c.(Config.query_multiplier)
                            collection.(coll_count))
           match excluded_paths w c.(Config.query_exclude) with
           | [] => None
           | excluded => Some (exclusion_clause excluded)
           end] /\
  (forall p,
      In p (excluded_paths w c.(Config.query_exclude)) <->
      exists i, In i (w.(expand_globs) c.(Config.query_exclude)) /\
                w.(fs) i <> None /\ p = w.(expand_path) i true).
Proof.
  intros Hmode Hcount Hembed. split; [|intros p; apply excluded_paths_In].
  pose proof (get_query_result_files_select collection c is_query
                                             quiet_not_query) as Hsel.
  cbv zeta in Hsel. rewrite Hsel, Hembed.
  destruct (Z.eqb_spec (coll_count collection) 0) as [E|_]; [contradiction|].
  rewrite sent_filter_document_mode by exact Hmode.
  cbn [Config.query_exclude Config.set_query_exclude].
  rewrite Hmode. case_match; reflexivity.
Qed.

Lemma document_mode_filter_witness :
  filter is_query
         (trace (@get_query_result_files
                   (demo_world 3 [] ["/repo/x.py"])
                   (demo_collection 3 [] ["/repo/x.py"])
                   (demo_configs [QueryInclude.path]
                                 ["/repo/none.py"; "/repo/skip.py"]))) =
  [EvQuery 3 (Some [("path", PDict [("$nin", PList [PStr "/repo/skip.py"])])])].
Proof.
  exact (proj1 (@document_mode_filter
                  (demo_world 3 [] ["/repo/x.py"])
                  (demo_collection 3 [] ["/repo/x.py"])
                  (demo_configs [QueryInclude.path]
                                ["/repo/none.py"; "/repo/skip.py"])
                  [tt] eq_refl ltac:(discriminate) eq_refl)).
Defined.

(** X (the filter of a chunk query without exclusions).  In chunk mode,
    when no exclusion pattern matches an existing file, the one search of a
    run asks for [n_result] candidates with the filter
    [{"start": {"$gte": 0}}], the same clause the capability probe uses. *)
Theorem chunk_mode_filter_without_exclusions
        (w : World) (collection : Collection w) (c : Config.t)
        (vectors : list w.(Vec)) :
  QueryInclude.mem QueryInclude.chunk c.(Config.include) = true ->
  excluded_paths w c.(Config.query_exclude) = [] ->
  collection.(coll_count) <> 0 ->
  w.(embedding_function)
      (Config.set_query_exclude (excluded_paths w c.(Config.query_exclude)) c)
      (query_chunks_of w c) = inr vectors ->
  filter is_query (trace (get_query_result_files collection c)) =
  [EvQuery c.(Config.n_result) (Some presence_clause)].
Proof.
  intros Hmode Hnone Hcount Hembed.
  pose proof (get_query_result_files_select collection c is_query
                                             quiet_not_query) as Hsel.
  cbv zeta in Hsel. rewrite Hsel, Hembed.
  destruct (Z.eqb_spec (coll_count collection) 0) as [E|_]; [contradiction|].
  rewrite sent_filter_chunk_alone by (cbn; assumption).
  unfold candidate_count. rewrite Hmode.
  case_match; reflexivity.
Qed.

Lemma chunk_mode_filter_without_exclusions_witness :
  filter is_query
         (trace (@get_query_result_files
                   (demo_world 3 ["c1"] ["c1"])
                   (demo_collection 3 ["c1"] ["c1"])
                   (demo_configs [QueryInclude.chunk] ["/repo/none.py"]))) =
  [EvQuery 1 (Some presence_clause)].
Proof.
  exact (@chunk_mode_filter_without_exclusions
           (demo_world 3 ["c1"] ["c1"]) (demo_collection 3 ["c1"] ["c1"])
           (demo_configs [QueryInclude.chunk] ["/repo/none.py"])
           [tt] eq_refl eq_refl ltac:(discriminate) eq_refl).
Defined.

(** ** The existing-file branch *)





(** With [chunk] among the keys it fails on that key. *)
Lemma restrict_chunk full include acc p d :
  QueryInclude.mem QueryInclude.chunk include = true ->
  dict_get "path" full = Some p -> dict_get "document" full = Some d ->
  dict_get "chunk" full = None ->
  restrict full include acc = inl (KeyError "chunk").
Proof.
  intros Hmode Hp Hd Hc. revert acc Hmode.
  induction include as [|key rest IH]; intros acc Hmode; cbn.
  - discriminate.
  - destruct key; cbn [QueryInclude.value].
    + rewrite Hp. apply IH. exact Hmode.
    + rewrite Hd. apply IH. exact Hmode.
    + rewrite Hc. reflexivity.
Qed.

(** An identifier that is an existing file, whatever the mode. *)
Lemma reconcile_file_run (w : World) (collection : Collection w) c
      identifier content :
  w.(fs) identifier = Some content ->
  reconcile collection identifier c =
  mkOut c [EvIsFile identifier; EvOpen identifier]
        match file_result w c identifier content with
        | inl e => inl e
        | inr r => inr [r]
        end.
Proof.
  intros Hfile. unfold reconcile, isfile.
  rewrite bind_get_configs, bind_bind, bind_emit, bind_ret, Hfile.
  unfold file_record, open_.
  rewrite bind_bind, bind_emit, Hfile, bind_ret.
  unfold file_result, output_path.
  destruct (restrict _ _ _) as [e|r];
    [rewrite bind_lift_inl | rewrite bind_lift_inr]; reflexivity.
Qed.

(** An identifier that is no file, outside chunk mode. *)
Lemma reconcile_stale_run (w : World) (collection : Collection w) c
      identifier :
  w.(fs) identifier = None ->
  QueryInclude.mem QueryInclude.chunk c.(Config.include) = false ->
  reconcile collection identifier c =
  mkOut c [EvIsFile identifier; EvLog WARNING (StaleFile identifier)] (inr []).
Proof.
  intros Hfile Hmode. unfold reconcile, isfile.
  rewrite bind_get_configs, bind_bind, bind_emit, bind_ret, Hfile, Hmode.
  reflexivity.
Qed.

(** X (an existing file in chunk mode).  When an identifier of a chunk
    query is the path of an existing file, the first branch is taken and the
    restriction to the include list fails: [reconcile] raises
    [KeyError('chunk')] after opening the file, and no record is made. *)
Theorem existing_file_in_chunk_mode (w : World) (collection : Collection w)
        (c : Config.t) (identifier content : string) :
  w.(fs) identifier = Some content ->
  QueryInclude.mem QueryInclude.chunk c.(Config.include) = true ->
  reconcile collection identifier c =
  mkOut c [EvIsFile identifier; EvOpen identifier] (inl (KeyError "chunk")).
Proof.
  intros Hfile Hmode. erewrite reconcile_file_run by exact Hfile.
  unfold file_result. erewrite restrict_chunk; try reflexivity. exact Hmode.
Qed.

Lemma existing_file_in_chunk_mode_witness :
  @reconcile (demo_world 3 ["c1"] ["/repo/x.py"])
             (demo_collection 3 ["c1"] ["/repo/x.py"]) "/repo/x.py"
             (demo_configs [QueryInclude.path; QueryInclude.chunk] []) =
  mkOut (demo_configs [QueryInclude.path; QueryInclude.chunk] [])
        [EvIsFile "/repo/x.py"; EvOpen "/repo/x.py"] (inl (KeyError "chunk")).
Proof.
  exact (@existing_file_in_chunk_mode
           (demo_world 3 ["c1"] ["/repo/x.py"])
           (demo_collection 3 ["c1"] ["/repo/x.py"])
           (demo_configs [QueryInclude.path; QueryInclude.chunk] [])
           "/repo/x.py" "hello" eq_refl eq_refl).
Defined.

(** ** Document mode from end to end *)









(** ** More on the chunk branch *)

Lemma py_slice_whole A (l : list A) (hi : Z) :
  Z.of_nat (List.length l) <= hi -> py_slice l 0 hi = l.
Proof.
  intros Hhi. unfold py_slice, slice_index.
  destruct (Z.ltb_spec hi 0) as [?|_]; [lia|].
  cbn [Z.ltb Z.compare]. rewrite (Z.min_l 0), (Z.min_r hi) by lia.
  rewrite Z.sub_0_r, Nat2Z.id. cbn [Z.to_nat skipn]. apply firstn_all.
Qed.

Lemma py_slice_empty A (l : list A) (lo hi : Z) :
  0 <= lo -> 0 <= hi ->
  hi <= lo \/ Z.of_nat (List.length l) <= lo ->
  py_slice l lo hi = [].
Proof.
  intros Hlo Hhi Hout. unfold py_slice, slice_index.
  destruct (Z.ltb_spec lo 0) as [?|_]; [lia|].
  destruct (Z.ltb_spec hi 0) as [?|_]; [lia|].
  destruct (Z_le_gt_dec (Z.of_nat (List.length l)) lo) as [Hbeyond|Hin].
  - rewrite (Z.min_r lo) by lia. rewrite Nat2Z.id, skipn_all.
    apply firstn_nil.
  - assert (Hle : hi <= lo) by lia.
    replace (Z.to_nat (Z.min hi (Z.of_nat (List.length l))
                       - Z.min lo (Z.of_nat (List.length l)))) with 0%nat
      by lia.
    reflexivity.
Qed.

(** X (a range that covers the file).  For a chunk whose range starts at
    line 0 and ends at or after the last line, the [chunk] field is the
    whole text of the file as it is now. *)
Theorem whole_file_chunk (w : World) (collection : Collection w)
        (c : Config.t) (identifier : string)
        (m : Metadata) (ms : list Metadata) (text : string)
        (texts : list string) (end_ : Z) (p content : string) :
  w.(fs) identifier = None ->
  QueryInclude.mem QueryInclude.chunk c.(Config.include) = true ->
  (collection.(coll_get_ids) identifier).(g_metadatas) = Some (m :: ms) ->
  (collection.(coll_get_ids) identifier).(g_documents) = Some (text :: texts) ->
  m.(m_start) = Some 0 -> m.(m_end) = Some end_ ->
  Z.of_nat (List.length (readlines content)) <= end_ + 1 ->
  m.(m_path) = Some p -> w.(fs) p = Some content ->
  exists r,
    res (reconcile collection identifier c) = inr [r] /\
    dict_get "chunk" r = Some (VStr content).
Proof.
  intros Hnofile Hchunk Hmeta Hdocs Hstart Hend Hcover Hpath Hfile.
  exists (chunk_result w c identifier p content 0 end_). split.
  - erewrite reconcile_chunk_with_range by eassumption. reflexivity.
  - unfold chunk_result. cbn [app dict_get String.eqb].
    rewrite py_slice_whole by exact Hcover.
    rewrite join_readlines. reflexivity.
Qed.

Lemma whole_file_chunk_witness :
  exists r,
    res (@reconcile
           (demo_world 3 ["c7"] ["c7"])
           (custom_collection
              3 ["c7"]
              (fun _ => mkGet ["c7"]
                              (Some [mkMeta (Some "/repo/x.py") (Some 0)
                                            (Some 40)])
                              (Some ["old text"]))
              (inr ["c7"]))
           "c7" (demo_configs [QueryInclude.chunk] [])) = inr [r] /\
    dict_get "chunk" r = Some (VStr "hello").
Proof.
  exact (@whole_file_chunk
           (demo_world 3 ["c7"] ["c7"])
           (custom_collection
              3 ["c7"]
              (fun _ => mkGet ["c7"]
                              (Some [mkMeta (Some "/repo/x.py") (Some 0)
                                            (Some 40)])
                              (Some ["old text"]))
              (inr ["c7"]))
           (demo_configs [QueryInclude.chunk] []) "c7"
           (mkMeta (Some "/repo/x.py") (Some 0) (Some 40)) []
           "old text" [] 40 "/repo/x.py" "hello"
           eq_refl eq_refl eq_refl eq_refl eq_refl eq_refl
           ltac:(cbn; lia) eq_refl eq_refl).
Defined.

(** X (a range outside the file).  For offsets [start >= 0] and
    [end >= -1]: when the range is empty ([end < start]) or starts at or
    after the end of the file, the record is emitted all the same, with the
    empty string as its [chunk] and the stored offsets as [start_line] and
    [end_line]. *)
Theorem range_outside_file (w : World) (collection : Collection w)
        (c : Config.t) (identifier : string)
        (m : Metadata) (ms : list Metadata) (text : string)
        (texts : list string) (start end_ : Z) (p content : string) :
  w.(fs) identifier = None ->
  QueryInclude.mem QueryInclude.chunk c.(Config.include) = true ->
  (collection.(coll_get_ids) identifier).(g_metadatas) = Some (m :: ms) ->
  (collection.(coll_get_ids) identifier).(g_documents) = Some (text :: texts) ->
  m.(m_start) = Some start -> m.(m_end) = Some end_ ->
  0 <= start -> -1 <= end_ ->
  end_ < start \/ Z.of_nat (List.length (readlines content)) <= start ->
  m.(m_path) = Some p -> w.(fs) p = Some content ->
  exists r,
    res (reconcile collection identifier c) = inr [r] /\
    dict_get "chunk" r = Some (VStr "") /\
    dict_get "start_line" r = Some (VInt start) /\
    dict_get "end_line" r = Some (VInt end_).
Proof.
  intros Hnofile Hchunk Hmeta Hdocs Hstart Hend Hs He Hout Hpath Hfile.
  exists (chunk_result w c identifier p content start end_). split.
  - erewrite reconcile_chunk_with_range by eassumption. reflexivity.
  - unfold chunk_result. cbn [app dict_get String.eqb].
    rewrite py_slice_empty by lia. repeat split.
Qed.

Lemma range_outside_file_witness :
  exists r,
    res (@reconcile
           (demo_world 3 ["c8"] ["c8"])
           (custom_collection
              3 ["c8"]
              (fun _ => mkGet ["c8"]
                              (Some [mkMeta (Some "/repo/lib.py") (Some 9)
                                            (Some 12)])
                              (Some ["old text"]))
              (inr ["c8"]))
           "c8" (demo_configs [QueryInclude.chunk] [])) = inr [r] /\
    dict_get "chunk" r = Some (VStr "") /\
    dict_get "start_line" r = Some (VInt 9) /\
    dict_get "end_line" r = Some (VInt 12).
Proof.
  exact (@range_outside_file
           (demo_world 3 ["c8"] ["c8"])
           (custom_collection
              3 ["c8"]
              (fun _ => mkGet ["c8"]
                              (Some [mkMeta (Some "/repo/lib.py") (Some 9)
                                            (Some 12)])
                              (Some ["old text"]))
              (inr ["c8"]))
           (demo_configs [QueryInclude.chunk] []) "c8"
           (mkMeta (Some "/repo/lib.py") (Some 9) (Some 12)) []
           "old text" [] 9 12 "/repo/lib.py"
           (String.concat (String newline EmptyString)
                          ["l0"; "l1"; "l2"; "l3"; ""])
           eq_refl eq_refl eq_refl eq_refl eq_refl eq_refl
           ltac:(lia) ltac:(lia) ltac:(right; cbn; lia) eq_refl eq_refl).
Defined.

(** X (a chunk whose file cannot be opened).  In the chunk branch, when
    the metadata has [start] and [end] but the file named by its [path] does
    not exist, [reconcile] raises [FileNotFoundError] after the lookup:
    nothing is logged and no record is made.  Metadata without [path] makes
    it open the file named [None]. *)
Theorem stale_chunk_raises (w : World) (collection : Collection w)
        (c : Config.t) (identifier : string)
        (m : Metadata) (ms : list Metadata) (text : string)
        (texts : list string) (start end_ : Z) :
  w.(fs) identifier = None ->
  QueryInclude.mem QueryInclude.chunk c.(Config.include) = true ->
  (collection.(coll_get_ids) identifier).(g_metadatas) = Some (m :: ms) ->
  (collection.(coll_get_ids) identifier).(g_documents) = Some (text :: texts) ->
  m.(m_start) = Some start -> m.(m_end) = Some end_ ->
  w.(fs) (match m.(m_path) with Some p => p | None => "None" end) = None ->
  reconcile collection identifier c =
  mkOut c
        [EvIsFile identifier; EvGetIds identifier;
         EvOpen (match m.(m_path) with Some p => p | None => "None" end)]
        (inl (FileNotFoundError
                (match m.(m_path) with Some p => p | None => "None" end))).
Proof.
  intros Hnofile Hchunk Hmeta Hdocs Hstart Hend Hgone.
  rewrite reconcile_chunk_branch by assumption.
  unfold chunk_record, get_ids.
  rewrite bind_bind, bind_emit, bind_ret, Hmeta, Hdocs, Hstart, Hend.
  unfold expand_chunk, open_, str_of_path.
  rewrite bind_bind, bind_emit, Hgone, bind_raise. reflexivity.
Qed.

Lemma stale_chunk_raises_witness :
  @reconcile (demo_world 3 ["c4"] ["c4"]) (demo_collection 3 ["c4"] ["c4"])
             "c4" (demo_configs [QueryInclude.chunk] []) =
  mkOut (demo_configs [QueryInclude.chunk] [])
        [EvIsFile "c4"; EvGetIds "c4"; EvOpen "/repo/gone.py"]
        (inl (FileNotFoundError "/repo/gone.py")).
Proof.
  exact (@stale_chunk_raises
           (demo_world 3 ["c4"] ["c4"]) (demo_collection 3 ["c4"] ["c4"])
           (demo_configs [QueryInclude.chunk] []) "c4"
           (mkMeta (Some "/repo/gone.py") (Some 0) (Some 0)) []
           "indexed text" [] 0 0
           eq_refl eq_refl eq_refl eq_refl eq_refl eq_refl eq_refl).
Defined.

(** X (a chunk without stored text).  In the chunk branch, when the
    metadata is there but the lookup has no [documents], the assertion of
    line 115 fails; when [documents] is an empty list, indexing it raises
    [IndexError].  Both happen before the range is looked at, also for
    metadata that has none. *)
Theorem chunk_without_document (w : World) (collection : Collection w)
        (c : Config.t) (identifier : string)
        (m : Metadata) (ms : list Metadata) :
  w.(fs) identifier = None ->
  QueryInclude.mem QueryInclude.chunk c.(Config.include) = true ->
  (collection.(coll_get_ids) identifier).(g_metadatas) = Some (m :: ms) ->
  ((collection.(coll_get_ids) identifier).(g_documents) = None ->
   reconcile collection identifier c =
   mkOut c [EvIsFile identifier; EvGetIds identifier] (inl AssertionError)) /\
  ((collection.(coll_get_ids) identifier).(g_documents) = Some [] ->
   reconcile collection identifier c =
   mkOut c [EvIsFile identifier; EvGetIds identifier] (inl IndexError)).
Proof.
  intros Hnofile Hchunk Hmeta.
  split; intros Hdocs; rewrite reconcile_chunk_branch by assumption;
    unfold chunk_record, get_ids;
    rewrite bind_bind, bind_emit, bind_ret, Hmeta, Hdocs; reflexivity.
Qed.

Lemma chunk_without_document_witness :
  @reconcile
    (demo_world 3 ["c9"] ["c9"])
    (custom_collection
       3 ["c9"]
       (fun _ => mkGet ["c9"] (Some [mkMeta (Some "/repo/x.py") None None])
                       None)
       (inr ["c9"]))
    "c9" (demo_configs [QueryInclude.chunk] []) =
  mkOut (demo_configs [QueryInclude.chunk] [])
        [EvIsFile "c9"; EvGetIds "c9"] (inl AssertionError).
Proof.
  exact (proj1 (@chunk_without_document
                  (demo_world 3 ["c9"] ["c9"])
                  (custom_collection
                     3 ["c9"]
                     (fun _ => mkGet ["c9"]
                                     (Some [mkMeta (Some "/repo/x.py")
                                                   None None])
                                     None)
                     (inr ["c9"]))
                  (demo_configs [QueryInclude.chunk] []) "c9"
                  (mkMeta (Some "/repo/x.py") None None) []
                  eq_refl eq_refl eq_refl)
               eq_refl).
Defined.

(** ** Counting records and lookups *)

Lemma reconcile_at_most_one (w : World) (collection : Collection w)
      identifier c bs :
  res (reconcile collection identifier c) = inr bs ->
  (List.length bs <= 1)%nat.
Proof.
  unfold reconcile, isfile, file_record, chunk_record, expand_chunk, open_,
    get_ids, log, bind, emit, ret, raise, lift, get_configs.
  cbn. repeat case_match; cbn; intros H; inversion H; cbn; lia.
Qed.

Lemma Forall2_length_concat A B (R : A -> list B -> Prop) l rss :
  Forall2 R l rss ->
  (forall a bs, R a bs -> (List.length bs <= 1)%nat) ->
  (List.length (List.concat rss) <= List.length l)%nat.
Proof.
  intros Hall Hone. induction Hall as [|a bs l rss Hab _ IH]; [reflexivity|].
  cbn. rewrite length_app. specialize (Hone a bs Hab). lia.
Qed.

(** X (one record at most for an identifier).  When [build_query_results]
    returns, it returns no more records than the reranker returned
    identifiers: an identifier gives one record or none, never several. *)
Theorem at_most_one_record_per_identifier
        (w : World) (collection : Collection w) (c : Config.t)
        (identifiers : list string) (results : list StructuredResult) :
  res (get_query_result_files collection c) = inr identifiers ->
  res (build_query_results collection c) = inr results ->
  (List.length results <= List.length identifiers)%nat.
Proof.
  intros Hids Hres.
  destruct (build_query_results_inr _ _ Hres)
    as [identifiers' [rss [Hids' [Hrec [_ Hnorm]]]]].
  rewrite Hids in Hids'. inversion Hids'. subst identifiers'.
  rewrite <- (Forall2_length Hnorm).
  eapply Forall2_length_concat; [exact Hrec|].
  intros identifier bs Hbs. eapply reconcile_at_most_one. exact Hbs.
Qed.

Lemma at_most_one_record_per_identifier_witness :
  (List.length [[("chunk", VStr (String.concat (String newline EmptyString)
                                               ["l1"; "l2"; ""]));
                 ("chunk_id", VStr "c1"); ("start_line", VInt 1);
                 ("end_line", VInt 2)]]
   <= List.length ["c1"; "c2"; "c3"])%nat.
Proof.
  exact (@at_most_one_record_per_identifier
           (demo_world 3 ["c1"] ["c1"; "c2"; "c3"])
           (demo_collection 3 ["c1"] ["c1"; "c2"; "c3"])
           (demo_configs [QueryInclude.chunk] [])
           ["c1"; "c2"; "c3"]
           [[("chunk", VStr (String.concat (String newline EmptyString)
                                           ["l1"; "l2"; ""]));
             ("chunk_id", VStr "c1"); ("start_line", VInt 1);
             ("end_line", VInt 2)]]
           eq_refl eq_refl).
Defined.

Lemma for_each_trace_Forall (P : Event -> Prop) A B (f : A -> M (list B))
      (l : list A) c :
  (forall a, preserves eq (f a)) ->
  (forall a, Forall P (trace (f a c))) ->
  Forall P (trace (for_each f l c)).
Proof.
  intros Hf HP. induction l as [|a l IH]; [constructor|].
  cbn [for_each]. rewrite trace_bind. apply Forall_app. split; [apply HP|].
  destruct (res (f a c)); [constructor|].
  rewrite cfg_unchanged by apply Hf. rewrite trace_bind.
  apply Forall_app. split; [exact IH|].
  destruct (res (for_each f l c)); constructor.
Qed.

Lemma filter_none A (p : A -> bool) (l : list A) :
  Forall (fun a => p a = false) l -> filter p l = [].
Proof.
  induction 1 as [|a l Ha _ IH]; [reflexivity|]. cbn. rewrite Ha. exact IH.
Qed.

Lemma quiet_not_get ev : quiet ev -> is_get ev = false.
Proof. destruct ev; cbn; intros H; solve [reflexivity | destruct H]. Qed.

Lemma human_output_no_get include results :
  filter is_get (human_output include results) = [].
Proof.
  rewrite <- human_output_prints.
  induction (human_output include results) as [|ev l IH]; [reflexivity|].
  cbn. destruct ev; cbn; exact IH.
Qed.

(** Outside chunk mode the pipeline asks the index for no record. *)
Lemma build_query_results_document_mode_no_get
      (w : World) (collection : Collection w) c :
  QueryInclude.mem QueryInclude.chunk c.(Config.include) = false ->
  filter is_get (trace (build_query_results collection c)) = [].
Proof.
  intros Hmode. unfold build_query_results. rewrite filter_bind.
  pose proof (get_query_result_files_select collection c is_get
                                             quiet_not_get) as Hsel.
  cbv zeta in Hsel.
  assert (Hfirst : filter is_get (trace (get_query_result_files collection c))
                   = [])
    by (rewrite Hsel; repeat case_match; reflexivity).
  rewrite Hfirst, get_query_result_files_cfg. cbn [app].
  destruct (res (get_query_result_files collection c)) as [e|identifiers];
    [reflexivity|].
  rewrite filter_bind.
  rewrite (filter_none is_get
             (l := trace (for_each (reconcile collection) identifiers _))).
  - cbn [app]. case_match; [reflexivity|].
    apply silent_filter. unfold silent. apply emits_only_map_m.
    intros raw. unfold normalise. run_emits.
  - apply for_each_trace_Forall; [apply reconcile_unchanged|].
    intros identifier.
    destruct (fs w identifier) as [content|] eqn:Hfile.
    + erewrite reconcile_file_run by exact Hfile. repeat constructor.
    + rewrite reconcile_stale_run by assumption. repeat constructor.
Qed.

(** X (no lookups outside chunk mode).  A run of [query] whose mode does
    not contain [chunk] never calls [collection.get]: neither the capability
    probe nor a lookup by identifier, whatever the collaborators answer. *)
Theorem document_mode_never_gets (w : World) (c : Config.t) :
  QueryInclude.mem QueryInclude.chunk c.(Config.include) = false ->
  filter is_get (trace (query w c)) = [].
Proof.
  intros Hchunk.
  assert (Hmode : QueryInclude.mem QueryInclude.chunk c.(Config.include)
                  && QueryInclude.mem QueryInclude.document c.(Config.include)
                  = false) by (rewrite Hchunk; reflexivity).
  assert (Hresolve : filter is_get (trace (resolve_collection w c c)) = []).
  { apply silent_filter. eapply emits_only_impl;
      [|apply resolve_collection_emits].
    intros ev [->|[m ->]]; reflexivity. }
  rewrite query_run by exact Hmode.
  destruct (res (resolve_collection w c c)) as [e|[status|collection]];
    cbn [trace filter is_get]; try exact Hresolve.
  rewrite fallback_run, Hchunk. cbn [trace cfg app].
  rewrite !filter_app, respond_run.
  assert (Hstart : filter is_get
                          (if Config.pipe c then [] else [EvPrint PStart]) = [])
    by (destruct (Config.pipe c); reflexivity).
  rewrite Hstart. cbn [app].
  pose proof (build_query_results_document_mode_no_get collection c Hchunk)
    as Hpipeline.
  destruct (res (build_query_results collection c)) as [e|results].
  - destruct (is_RerankerError e); cbn [trace];
      rewrite ?filter_app, Hpipeline; reflexivity.
  - cbn [trace]. rewrite filter_app, Hpipeline.
    destruct (Config.pipe c); [reflexivity|]. apply human_output_no_get.
Qed.

Lemma document_mode_never_gets_witness :
  filter is_get
         (trace (query (demo_world 3 ["c1"] ["/repo/x.py"; "c1"])
                       (demo_configs [QueryInclude.path; QueryInclude.document]
                                     ["/repo/skip.py"]))) = [].
Proof.
  exact (@document_mode_never_gets
           (demo_world 3 ["c1"] ["/repo/x.py"; "c1"])
           (demo_configs [QueryInclude.path; QueryInclude.document]
                         ["/repo/skip.py"])
           eq_refl).
Defined.

(** ** More on the driver *)

(** X (an empty collection is no failure).  In a run that reached a
    collection whose count is 0, [query] returns 0 and prints the empty
    result: the JSON array of no results in pipe mode, the start line alone
    otherwise. *)
Theorem empty_collection_is_success (w : World) (collection : Collection w)
        (c : Config.t) :
  QueryInclude.mem QueryInclude.chunk c.(Config.include)
  && QueryInclude.mem QueryInclude.document c.(Config.include) = false ->
  w.(get_collection) c = inr collection ->
  w.(verify_ef) collection c = inr true ->
  collection.(coll_count) = 0 ->
  res (query w c) = inr 0 /\
  filter is_print (trace (query w c)) =
  if c.(Config.pipe) then [EvPrint (PJson [])] else [EvPrint PStart].
Proof.
  intros Hmode Hget Hverify Hcount.
  assert (Hempty : res (build_query_results
                          collection (cfg (fallback collection c))) = inr [])
    by (rewrite build_query_results_empty by exact Hcount; reflexivity).
  exact (successful_run_output _ Hmode Hget Hverify Hempty).
Qed.

Lemma empty_collection_is_success_witness :
  res (query (demo_world 0 [] [])
             (demo_configs [QueryInclude.path; QueryInclude.document] []))
  = inr 0 /\
  filter is_print
         (trace (query (demo_world 0 [] [])
                       (demo_configs [QueryInclude.path; QueryInclude.document]
                                     []))) = [EvPrint (PJson [])].
Proof.
  exact (@empty_collection_is_success
           (demo_world 0 [] []) (demo_collection 0 [] [])
           (demo_configs [QueryInclude.path; QueryInclude.document] [])
           eq_refl eq_refl eq_refl eq_refl).
Defined.

(** X (the probe finds line ranges).  When chunk output is requested and
    the probe returns at least one identifier, nothing is logged and the
    mode is kept: the rest of the run is the pipeline on the configuration
    as it was passed in. *)
Theorem fallback_keeps_chunk_mode (w : World) (collection : Collection w)
        (c : Config.t) (tagged : string) (others : list string) :
  QueryInclude.mem QueryInclude.chunk c.(Config.include) = true ->
  QueryInclude.mem QueryInclude.document c.(Config.include) = false ->
  w.(get_collection) c = inr collection ->
  w.(verify_ef) collection c = inr true ->
  (collection.(coll_get_where) presence_clause).(g_ids) = tagged :: others ->
  query w c =
  mkOut (cfg (respond collection c))
        (EvConnect :: EvGetCollection
         :: (if c.(Config.pipe) then [] else [EvPrint PStart])
         ++ [EvGetWhere presence_clause]
         ++ trace (respond collection c))
        (res (respond collection c)) /\
  Config.include (cfg (query w c)) = c.(Config.include).
Proof.
  intros Hchunk Hdocument Hget Hverify Hprobe.
  assert (Hmode : QueryInclude.mem QueryInclude.chunk c.(Config.include)
                  && QueryInclude.mem QueryInclude.document c.(Config.include)
                  = false) by (rewrite Hdocument; apply andb_false_r).
  assert (Hrun := query_resolved _ Hmode Hget Hverify).
  rewrite fallback_run, Hchunk, Hprobe in Hrun. cbn [cfg trace] in Hrun.
  split; [exact Hrun|].
  rewrite Hrun. cbn [cfg]. rewrite respond_cfg. reflexivity.
Qed.

Lemma fallback_keeps_chunk_mode_witness :
  Config.include
    (cfg (query (demo_world 3 ["c1"] ["c1"])
                (demo_configs [QueryInclude.chunk; QueryInclude.path] []))) =
  [QueryInclude.chunk; QueryInclude.path].
Proof.
  exact (proj2 (@fallback_keeps_chunk_mode
                  (demo_world 3 ["c1"] ["c1"]) (demo_collection 3 ["c1"] ["c1"])
                  (demo_configs [QueryInclude.chunk; QueryInclude.path] [])
                  "c1" [] eq_refl eq_refl eq_refl eq_refl eq_refl)).
Defined.

(** X (the exit status).  Whenever [query] returns, it returns 0 or 1, and
    it returns 0 only if a collection was resolved and
    [build_query_results] returned on it. *)
Theorem exit_status (w : World) (c : Config.t) (status : Z) :
  res (query w c) = inr status ->
  status = 1 \/
  (status = 0 /\
   exists (collection : Collection w) results,
     w.(get_collection) c = inr collection /\
     res (build_query_results collection (cfg (fallback collection c)))
     = inr results).
Proof.
  intros Hstatus.
  destruct (QueryInclude.mem QueryInclude.chunk c.(Config.include)
            && QueryInclude.mem QueryInclude.document c.(Config.include))
    eqn:Hmode.
  - apply andb_true_iff in Hmode. destruct Hmode as [Hchunk Hdocument].
    rewrite chunk_and_document_rejected in Hstatus by assumption.
    inversion Hstatus. left. reflexivity.
  - rewrite query_run in Hstatus by exact Hmode.
    destruct (res (resolve_collection w c c)) as [e|[s|collection]] eqn:Hres.
    + discriminate.
    + inversion Hstatus. subst s. left.
      rewrite resolve_collection_run in Hres.
      repeat case_match_in Hres; inversion Hres; reflexivity.
    + cbn [res] in Hstatus. rewrite respond_run in Hstatus.
      destruct (res (build_query_results
                       collection (cfg (fallback collection c))))
        as [e|results] eqn:Hbuild.
      * destruct (is_RerankerError e); inversion Hstatus. left. reflexivity.
      * inversion Hstatus. right. split; [reflexivity|].
        exists collection, results. split; [|exact Hbuild].
        eapply resolve_collection_inr. exact Hres.
Qed.

Lemma exit_status_witness :
  0 = 1 \/
  (0 = 0 /\
   exists (collection : Collection (demo_world 3 [] ["/repo/x.py"])) results,
     get_collection (demo_world 3 [] ["/repo/x.py"])
                    (demo_configs [QueryInclude.path] []) = inr collection /\
     res (build_query_results
            collection
            (cfg (fallback collection (demo_configs [QueryInclude.path] []))))
     = inr results).
Proof.
  exact (@exit_status
           (demo_world 3 [] ["/repo/x.py"])
           (demo_configs [QueryInclude.path] []) 0 eq_refl).
Defined.
